(** * Booking-intake API of Alankritha Naturals: model and properties

    Shallow embedding of [src/schemas.py] (the [Booking] record schema) and
    [src/main.py] (the calendar-invite formatter [build_ics], the
    booking-creation handler [create_booking] and the diagnostics handler
    [test_database]).

    Python [str] values are modelled by [string]; every element of a
    [string] stands for one character, so [String.length] is Python's
    [len].  Non-ASCII literals of the source appear with their UTF-8
    spelling; they are only ever copied, never measured.  A backslash has no
    special meaning inside a Rocq string: the two characters written
    [\n] below are the backslash and the letter n that the Python source
    writes [\\n], and a real line feed is the constant [LF]. *)

From Stdlib Require Import ZArith String Ascii List Lia.
From stdpp Require Import base tactics option list gmap strings pretty fin_maps.

Local Open Scope Z_scope.
#[local] Set Warnings "-clear-no-such-hyp".

(** ** Text helpers *)

Definition LF : ascii := Ascii.ascii_of_nat 10.

Definition NL : string := String LF EmptyString.

(** [s.split(LF)]: the pieces between line feeds, the last one included
    even when it is empty. *)
Fixpoint lines (s : string) : list string :=
  match s with
  | EmptyString => [EmptyString]
  | String c r =>
      if Ascii.eqb c LF then EmptyString :: lines r
      else match lines r with
           | l :: ls => String c l :: ls
           | [] => [String c EmptyString]
           end
  end.

(** [s.startswith(key)] *)
Fixpoint starts_with (key s : string) : bool :=
  match key, s with
  | EmptyString, _ => true
  | String a k, String b r => Ascii.eqb a b && starts_with k r
  | String _ _, EmptyString => false
  end.

(** The first line of [text] that starts with [key]. *)
Definition field_line (key text : string) : option string :=
  List.find (starts_with key) (lines text).

(** The text made of [records], each one closed by a line feed. *)
Fixpoint join (records : list string) : string :=
  match records with
  | [] => EmptyString
  | r :: rest => r +:+ NL +:+ join rest
  end.

Fixpoint no_LF (s : string) : bool :=
  match s with
  | EmptyString => true
  | String c r => negb (Ascii.eqb c LF) && no_LF r
  end.

(** The number of line feeds in [s]. *)
Fixpoint count_LF (s : string) : nat :=
  match s with
  | EmptyString => O
  | String c r => ((if Ascii.eqb c LF then 1 else 0) + count_LF r)%nat
  end.

(** [s[:n]] for [n >= 0]. *)
Fixpoint str_take (n : nat) (s : string) : string :=
  match n, s with
  | O, _ => EmptyString
  | _, EmptyString => EmptyString
  | S n', String c r => String c (str_take n' r)
  end.

Definition digit_char (d : Z) : ascii :=
  Ascii.ascii_of_nat (48 + Z.to_nat (d mod 10)).

(** The [width] low decimal digits of [n]: [n] zero-padded to [width]
    when [0 <= n < 10 ^ width]. *)
Fixpoint zero_padded (width : nat) (n : Z) : string :=
  match width with
  | O => EmptyString
  | S w => zero_padded w (n / 10) +:+ String (digit_char n) EmptyString
  end.

(** ** The [datetime] module of the Python standard library

    The part of [datetime] the handlers use, following CPython's
    [Lib/datetime.py]: proleptic Gregorian ordinals, [datetime + timedelta],
    and [strftime] for the directives that occur in [build_ics]. *)

Module PyDatetime.

(** A [datetime] value.  [tzinfo] is the fixed UTC offset in
    microseconds of an aware value, [None] for a naive one. *)
Record datetime := mk_datetime {
  year : Z; month : Z; day : Z;
  hour : Z; minute : Z; second : Z; microsecond : Z;
  tzinfo : option Z
}.

Definition MINYEAR : Z := 1.
Definition MAXYEAR : Z := 9999.
Definition _MAXORDINAL : Z := 3652059.

Definition _DAYS_IN_MONTH : list Z :=
  [-1; 31; 28; 31; 30; 31; 30; 31; 31; 30; 31; 30; 31].

(** The running sums the module computes at import time:
    [dbm = 0; for dim in _DAYS_IN_MONTH[1:]: append dbm; dbm += dim]. *)
Fixpoint running_sums (dbm : Z) (dims : list Z) : list Z :=
  match dims with
  | [] => []
  | dim :: rest => dbm :: running_sums (dbm + dim) rest
  end.

Definition _DAYS_BEFORE_MONTH : list Z :=
  Eval cbv in -1 :: running_sums 0 (tl _DAYS_IN_MONTH).

(** [l[i]] for an index in range; the library asserts
    [1 <= month <= 12] before it reads either table. *)
Definition index (l : list Z) (i : Z) : Z := nth (Z.to_nat i) l 0.

Definition _is_leap (y : Z) : bool :=
  (y mod 4 =? 0) && (negb (y mod 100 =? 0) || (y mod 400 =? 0)).

Definition _days_before_year (yr : Z) : Z :=
  let y := yr - 1 in y * 365 + y / 4 - y / 100 + y / 400.

Definition _days_in_month (y m : Z) : Z :=
  if (m =? 2) && _is_leap y then 29 else index _DAYS_IN_MONTH m.

Definition _days_before_month (y m : Z) : Z :=
  index _DAYS_BEFORE_MONTH m + (if (2 <? m) && _is_leap y then 1 else 0).

Definition _ymd2ord (y m d : Z) : Z :=
  _days_before_year y + _days_before_month y m + d.

Definition _DI400Y : Z := Eval cbv in _days_before_year 401.
Definition _DI100Y : Z := Eval cbv in _days_before_year 101.
Definition _DI4Y : Z := Eval cbv in _days_before_year 5.

(** The month and day of the [n]-th day (from 0) of a year. *)
Definition _month_day (leapyear : bool) (n : Z) : Z * Z :=
  let month := Z.shiftr (n + 50) 5 in
  let preceding :=
    index _DAYS_BEFORE_MONTH month
    + (if (2 <? month) && leapyear then 1 else 0) in
  if n <? preceding then
    let month' := month - 1 in
    let preceding' :=
      preceding - (index _DAYS_IN_MONTH month'
                   + (if (month' =? 2) && leapyear then 1 else 0)) in
    (month', n - preceding' + 1)
  else (month, n - preceding + 1).

Definition _ord2ymd (ordinal : Z) : Z * Z * Z :=
  let n := ordinal - 1 in
  let n400 := n / _DI400Y in
  let n := n mod _DI400Y in
  let yr := n400 * 400 + 1 in
  let n100 := n / _DI100Y in
  let n := n mod _DI100Y in
  let n4 := n / _DI4Y in
  let n := n mod _DI4Y in
  let n1 := n / 365 in
  let n := n mod 365 in
  let yr := yr + n100 * 100 + n4 * 4 + n1 in
  if (n1 =? 4) || (n100 =? 4) then (yr - 1, 12, 31)
  else
    let leapyear := (n1 =? 3) && (negb (n4 =? 24) || (n100 =? 3)) in
    let '(m, d) := _month_day leapyear n in
    (yr, m, d).

(** The checks on [_month_day], for one day of a year. *)
Definition month_day_ok (leapyear : bool) (n : Z) : bool :=
  let '(m, d) := _month_day leapyear n in
  (1 <=? m) && (m <=? 12) && (1 <=? d)
  && (d <=? (if (m =? 2) && leapyear then 29 else index _DAYS_IN_MONTH m))
  && (index _DAYS_BEFORE_MONTH m
      + (if (2 <? m) && leapyear then 1 else 0) + d =? n + 1).

Definition toordinal (dt : datetime) : Z :=
  _ymd2ord (year dt) (month dt) (day dt).

(** A [timedelta] is kept as its total number of microseconds; the
    normalised triple of the library is recovered by division. *)
Definition timedelta := Z.

Definition US_PER_SECOND : Z := 1000000.
Definition US_PER_DAY : Z := 86400 * US_PER_SECOND.

Definition timedelta_of
    (days hours minutes seconds microseconds : Z) : timedelta :=
  (((days * 24 + hours) * 60 + minutes) * 60 + seconds) * US_PER_SECOND
  + microseconds.

Definition td_days (td : timedelta) : Z := td / US_PER_DAY.
Definition td_seconds (td : timedelta) : Z :=
  (td mod US_PER_DAY) / US_PER_SECOND.
Definition td_microseconds (td : timedelta) : Z := td mod US_PER_SECOND.

(** [datetime.__add__]: [None] stands for [OverflowError]. *)
Definition add (dt : datetime) (other : timedelta) : option datetime :=
  let delta :=
    timedelta_of (toordinal dt) (hour dt) (minute dt) (second dt)
                 (microsecond dt) + other in
  let hh := td_seconds delta / 3600 in
  let rem := td_seconds delta mod 3600 in
  let mm := rem / 60 in
  let ss := rem mod 60 in
  if (0 <? td_days delta) && (td_days delta <=? _MAXORDINAL) then
    let '(y, m, d) := _ord2ymd (td_days delta) in
    Some (mk_datetime y m d hh mm ss (td_microseconds delta) (tzinfo dt))
  else None.

(** The invariant every [datetime] object satisfies by construction. *)
Definition valid (dt : datetime) : Prop :=
  MINYEAR <= year dt <= MAXYEAR /\
  1 <= month dt <= 12 /\
  1 <= day dt <= _days_in_month (year dt) (month dt) /\
  0 <= hour dt < 24 /\ 0 <= minute dt < 60 /\ 0 <= second dt < 60 /\
  0 <= microsecond dt < US_PER_SECOND.

Definition validb (dt : datetime) : bool :=
  (MINYEAR <=? year dt) && (year dt <=? MAXYEAR) &&
  (1 <=? month dt) && (month dt <=? 12) &&
  (1 <=? day dt) && (day dt <=? _days_in_month (year dt) (month dt)) &&
  (0 <=? hour dt) && (hour dt <? 24) &&
  (0 <=? minute dt) && (minute dt <? 60) &&
  (0 <=? second dt) && (second dt <? 60) &&
  (0 <=? microsecond dt) && (microsecond dt <? US_PER_SECOND).

(** Position of the wall-clock reading on a linear scale: microseconds
    since the midnight that starts day 0 of the proleptic calendar. *)
Definition wall_clock_us (dt : datetime) : Z :=
  timedelta_of (toordinal dt) (hour dt) (minute dt) (second dt)
               (microsecond dt).

(** One hour after [dt], counted on the calendar: the hour advances, and
    past 23 the day does, past the last day of the month the month, past
    December the year.  The arithmetic of [add] is compared with it. *)
Definition one_hour_later (dt : datetime) : datetime :=
  if hour dt <? 23 then
    mk_datetime (year dt) (month dt) (day dt) (hour dt + 1)
                (minute dt) (second dt) (microsecond dt) (tzinfo dt)
  else if day dt <? _days_in_month (year dt) (month dt) then
    mk_datetime (year dt) (month dt) (day dt + 1) 0
                (minute dt) (second dt) (microsecond dt) (tzinfo dt)
  else if month dt <? 12 then
    mk_datetime (year dt) (month dt + 1) 1 0
                (minute dt) (second dt) (microsecond dt) (tzinfo dt)
  else
    mk_datetime (year dt + 1) 1 1 0
                (minute dt) (second dt) (microsecond dt) (tzinfo dt).

(** [strftime] for the directives [%Y %m %d %H %M %S]; any other
    character of the format is copied.  [%Y] is written with four
    digits, as the library documents it. *)
Fixpoint strftime (dt : datetime) (fmt : string) : string :=
  match fmt with
  | String "%" (String d rest) =>
      (if Ascii.eqb d "Y" then zero_padded 4 (year dt)
       else if Ascii.eqb d "m" then zero_padded 2 (month dt)
       else if Ascii.eqb d "d" then zero_padded 2 (day dt)
       else if Ascii.eqb d "H" then zero_padded 2 (hour dt)
       else if Ascii.eqb d "M" then zero_padded 2 (minute dt)
       else if Ascii.eqb d "S" then zero_padded 2 (second dt)
       else String "%" (String d EmptyString))
      +:+ strftime dt rest
  | String c rest => String c (strftime dt rest)
  | EmptyString => EmptyString
  end.

End PyDatetime.

Import PyDatetime.

(** ** Python values, exceptions and effects *)

(** The values a decoded JSON body can hold, and the [datetime] object
    the handler stores into the payload.  A [float] is kept as the text
    [repr] gives for it: no handler computes with it. *)
#[local] Unset Elimination Schemes.
Inductive PyVal :=
| PNone
| PBool (b : bool)
| PInt (n : Z)
| PFloat (repr : string)
| PStr (s : string)
| PDatetime (dt : datetime)
| PList (items : list PyVal)
| PDict (items : list (string * PyVal)).
#[local] Set Elimination Schemes.

Abbreviation Payload := (gmap string PyVal).

(** [isinstance(v, str)] *)
Definition is_str (v : option PyVal) : bool :=
  match v with Some (PStr _) => true | _ => false end.

(** The floats that are not numbers of JSON; Python's [json.loads]
    reads them all the same. *)
Definition non_finite (repr : string) : bool :=
  bool_decide (repr ∈ ["nan"; "inf"; "-inf"]%string).

(** [json.dumps(v, allow_nan=False)], as Starlette calls it, succeeds: it
    raises [TypeError] on a [datetime] object and [ValueError] on a float
    that is not finite, also inside a list or a dictionary. *)
Fixpoint json_serializable (v : PyVal) : bool :=
  match v with
  | PDatetime _ => false
  | PFloat repr => negb (non_finite repr)
  | PList items => forallb json_serializable items
  | PDict items =>
      (fix all (l : list (string * PyVal)) : bool :=
         match l with
         | [] => true
         | (_, x) :: l => json_serializable x && all l
         end) items
  | _ => true
  end.

(** What an entry of pydantic's [ValidationError.errors()] echoes under
    [input]: the value of the field or, for a field that is missing, the
    whole mapping the model was called with. *)
Inductive ErrorInput :=
| FieldValue (v : PyVal)
| WholeInput (data : Payload).

(** One entry of pydantic's [ValidationError.errors()]: the field it is
    about, the kind of violation and the input echoed.  The entry's other
    keys ([msg], [url], [ctx]) are texts and numbers fixed by the kind of
    violation and the schema. *)
Inductive ErrorType :=
| missing
| string_type
| string_too_short
| string_too_long
| value_error
| literal_error
| datetime_type.

Record ErrorDetails := mk_error {
  loc : string;
  type : ErrorType;
  input : ErrorInput
}.

(** [json.dumps] succeeds on a dictionary with these items. *)
Definition dict_serializable (data : gmap string PyVal) : bool :=
  forallb (fun kv => json_serializable kv.2) (map_to_list data).

Definition input_serializable (i : ErrorInput) : bool :=
  match i with
  | FieldValue v => json_serializable v
  | WholeInput data => dict_serializable data
  end.

(** The [detail] of an [HTTPException]: a text, or a list of field
    errors. *)
Inductive Detail :=
| DetailStr (s : string)
| DetailErrors (errors : list ErrorDetails).

(** [json.dumps] succeeds on the detail. *)
Definition detail_serializable (d : Detail) : bool :=
  match d with
  | DetailStr _ => true
  | DetailErrors errors =>
      forallb (fun e => input_serializable (input e)) errors
  end.

(** Exceptions (all of them subclasses of [Exception]). *)
Inductive Exn :=
| HTTPException (status_code : Z) (detail : Detail)
| ValidationError (errors : list ErrorDetails)
| ValueError (msg : string)
| OverflowError (msg : string)
| ImportError (msg : string)
| Exception (msg : string).

(** [str(e)], read by the handlers from what a collaborator raised; for
    the two exceptions the handlers raise themselves, whose text is
    never read, the empty text stands. *)
Definition str (e : Exn) : string :=
  match e with
  | ValueError m | OverflowError m | ImportError m | Exception m => m
  | HTTPException _ _ | ValidationError _ => EmptyString
  end.

Inductive Outcome (A : Type) :=
| Return (a : A)
| Raise (e : Exn).
Arguments Return {A} a.
Arguments Raise {A} e.

(** A computation over a mutable state [S] that returns or raises; what
    it did to the state before raising stays done. *)
Definition M (S A : Type) : Type := S -> Outcome A * S.

Definition ret {S A} (a : A) : M S A := fun s => (Return a, s).

Definition raise {S A} (e : Exn) : M S A := fun s => (Raise e, s).

Definition bind {S A B} (m : M S A) (k : A -> M S B) : M S B :=
  fun s =>
    match m s with
    | (Return a, s') => k a s'
    | (Raise e, s') => (Raise e, s')
    end.

(** [try: body / except ...: handler]; a handler re-raises what it does
    not catch. *)
Definition try_except {S A} (body : M S A) (handler : Exn -> M S A) : M S A :=
  fun s =>
    match body s with
    | (Return a, s') => (Return a, s')
    | (Raise e, s') => handler e s'
    end.

Definition get {S} : M S S := fun s => (Return s, s).

Definition modify {S} (f : S -> S) : M S unit := fun s => (Return tt, f s).

Definition of_outcome {S A} (o : Outcome A) : M S A := fun s => (o, s).

#[global] Instance M_ret {S} : MRet (M S) := fun A => @ret S A.
#[global] Instance M_bind {S} : MBind (M S) := fun A B k m => bind m k.

(** The library functions the repository calls but does not define. *)
Class Libraries := {
  (** [datetime.fromisoformat]; [None] when it raises. *)
  fromisoformat : string -> option datetime;
  (** The syntax check behind pydantic's [EmailStr] (package
      email-validator): the normalised address, or [None]. *)
  validate_email : string -> option string;
  (** pydantic's coercion of a value that is not a [datetime] object to
      the [datetime] type (numbers as Unix time, text); [None] when it
      refuses the value. *)
  lax_datetime : PyVal -> option datetime
}.

(** ** [schemas.py]: the [Booking] schema

    Validation follows pydantic 2 in its default (lax) mode: a text
    field takes a [str] and nothing else, a [Literal] field takes the
    listed texts, every field is checked and the errors are reported
    together, in the order the fields are declared. *)

Module Schemas.

Inductive Service :=
| HairStyling | Facials | Manicure | Pedicure | BridalMakeup | Skincare.

Inductive Status := pending | confirmed | failed.

(** The text of each member of the two [Literal] types. *)
Definition service_text (s : Service) : string :=
  match s with
  | HairStyling => "Hair Styling"
  | Facials => "Facials"
  | Manicure => "Manicure"
  | Pedicure => "Pedicure"
  | BridalMakeup => "Bridal Makeup"
  | Skincare => "Skincare"
  end.

Definition status_text (s : Status) : string :=
  match s with
  | pending => "pending"
  | confirmed => "confirmed"
  | failed => "failed"
  end.

Record Booking := mk_Booking {
  name : string;
  phone : string;
  email : string;
  service : Service;
  preferred_datetime : datetime;
  notes : option string;
  status : Status
}.

(** The field names, in declaration order. *)
Definition fields : list string :=
  ["name"; "phone"; "email"; "service"; "preferred_datetime"; "notes";
   "status"]%string.

(** The fields declared without a default. *)
Definition required : list string :=
  ["name"; "phone"; "email"; "service"; "preferred_datetime"]%string.

(** [data] without the keys that name no field. *)
Definition without_unknown_keys (data : Payload) : Payload :=
  filter (fun kv => kv.1 ∈ fields) data.

(** The result of validating one field. *)
Definition Checked (A : Type) : Type := ErrorType + A.

Definition is_error {A} (c : Checked A) : bool :=
  match c with inl _ => true | inr _ => false end.

(** [str] with [min_length] / [max_length] (either may be absent). *)
Definition check_str (min_length max_length : option nat) (v : PyVal)
    : Checked string :=
  match v with
  | PStr s =>
      let n := String.length s in
      if match min_length with Some lo => (n <? lo)%nat | None => false end
      then inl string_too_short
      else if match max_length with
              | Some hi => (hi <? n)%nat
              | None => false
              end
      then inl string_too_long
      else inr s
  | _ => inl string_type
  end.

(** Membership in a [Literal] of texts: the member whose text equals the
    value. *)
Definition check_literal {A} (members : list A) (text : A -> string)
    (v : PyVal) : Checked A :=
  match v with
  | PStr s =>
      match List.find (fun m => String.eqb (text m) s) members with
      | Some m => inr m
      | None => inl literal_error
      end
  | _ => inl literal_error
  end.

Definition services : list Service :=
  [HairStyling; Facials; Manicure; Pedicure; BridalMakeup; Skincare].

Definition statuses : list Status := [pending; confirmed; failed].

(** [Optional[T]]: [None] is accepted as it is. *)
Definition check_optional {A} (check : PyVal -> Checked A) (v : PyVal)
    : Checked (option A) :=
  match v with
  | PNone => inr None
  | _ => match check v with inl e => inl e | inr a => inr (Some a) end
  end.

(** A field without a default is required; a missing field with a
    default takes it unchecked. *)
Definition field {A} (data : Payload) (key : string) (default : option A)
    (check : PyVal -> Checked A) : Checked A :=
  match data !! key with
  | Some v => check v
  | None => match default with Some d => inr d | None => inl missing end
  end.

Section Validation.
Context {lib : Libraries}.

Definition check_email (v : PyVal) : Checked string :=
  match v with
  | PStr s =>
      match validate_email s with
      | Some normalised => inr normalised
      | None => inl value_error
      end
  | _ => inl string_type
  end.

Definition check_datetime (v : PyVal) : Checked datetime :=
  match v with
  | PDatetime dt => inr dt
  | _ =>
      match lax_datetime v with
      | Some dt => inr dt
      | None => inl datetime_type
      end
  end.

Definition check_name (data : Payload) : Checked string :=
  field data "name" None (check_str (Some 2%nat) (Some 100%nat)).
Definition check_phone (data : Payload) : Checked string :=
  field data "phone" None (check_str (Some 7%nat) (Some 20%nat)).
Definition check_email_field (data : Payload) : Checked string :=
  field data "email" None check_email.
Definition check_service (data : Payload) : Checked Service :=
  field data "service" None (check_literal services service_text).
Definition check_preferred_datetime (data : Payload) : Checked datetime :=
  field data "preferred_datetime" None check_datetime.
Definition check_notes (data : Payload) : Checked (option string) :=
  field data "notes" (Some None)
        (check_optional (check_str None (Some 1000%nat))).
Definition check_status (data : Payload) : Checked Status :=
  field data "status" (Some pending) (check_literal statuses status_text).

(** The input an error on [key] echoes. *)
Definition error_input (data : Payload) (key : string) : ErrorInput :=
  match data !! key with
  | Some v => FieldValue v
  | None => WholeInput data
  end.

(** The error entry of a field, if it has one. *)
Definition field_errors {A} (data : Payload) (key : string) (c : Checked A)
    : list ErrorDetails :=
  match c with
  | inl e => [mk_error key e (error_input data key)]
  | inr _ => []
  end.

(** Every field is checked, whatever happened to the ones before it;
    keys of [data] that name no field are not looked at
    (pydantic's default [extra = 'ignore']). *)
Definition all_errors (data : Payload) : list ErrorDetails :=
  field_errors data "name" (check_name data)
  ++ field_errors data "phone" (check_phone data)
  ++ field_errors data "email" (check_email_field data)
  ++ field_errors data "service" (check_service data)
  ++ field_errors data "preferred_datetime" (check_preferred_datetime data)
  ++ field_errors data "notes" (check_notes data)
  ++ field_errors data "status" (check_status data).

(** The constructor [Booking], called with the payload as keyword
    arguments: the record, or [ValidationError] with the errors of
    all fields. *)
Definition Booking_init (data : Payload) : Outcome Booking :=
  match check_name data, check_phone data, check_email_field data,
        check_service data, check_preferred_datetime data,
        check_notes data, check_status data with
  | inr n, inr p, inr e, inr s, inr d, inr nt, inr st =>
      Return (mk_Booking n p e s d nt st)
  | _, _, _, _, _, _, _ => Raise (ValidationError (all_errors data))
  end.

(** Following the data model of the specification: field [key] of
    [data] violates its constraint.  [name] is a text of 2 to 100
    characters and [phone] one of 7 to 20; [email] is a text with valid
    address syntax; [service] and [status] are members of their
    enumerations; [preferred_datetime] is a timestamp; [notes] is absent,
    null or a text of at most 1000 characters; [status] may be absent. *)
Definition violates (data : Payload) (key : string) : Prop :=
  (key = "name"%string ∧
   ¬ ∃ s, data !! key = Some (PStr s)
          ∧ (2 <= String.length s <= 100)%nat)
  ∨ (key = "phone"%string ∧
     ¬ ∃ s, data !! key = Some (PStr s)
            ∧ (7 <= String.length s <= 20)%nat)
  ∨ (key = "email"%string ∧
     ¬ ∃ s, data !! key = Some (PStr s) ∧ is_Some (validate_email s))
  ∨ (key = "service"%string ∧
     ¬ ∃ m, data !! key = Some (PStr (service_text m)))
  ∨ (key = "preferred_datetime"%string ∧
     ¬ ((∃ dt, data !! key = Some (PDatetime dt))
        ∨ ∃ v, data !! key = Some v ∧ is_Some (lax_datetime v)))
  ∨ (key = "notes"%string ∧
     ¬ (data !! key = None ∨ data !! key = Some PNone
        ∨ ∃ s, data !! key = Some (PStr s)
               ∧ (String.length s <= 1000)%nat))
  ∨ (key = "status"%string ∧
     ¬ (data !! key = None
        ∨ ∃ m, data !! key = Some (PStr (status_text m)))).
End Validation.

End Schemas.

(** ** [main.py]: the handlers *)

Module Main.
Import Schemas.

(** What [database.create_document] answers: the new identifier, or an
    exception [e], kept as the text [str(e)]. *)
Inductive StoreResult :=
| Inserted (id : string)
| Failed (message : string).

(** The collaborators of the booking handler, over a world [W] they
    read and change: the document store and the system clock. *)
Class Collaborators (W : Type) := {
  create_document : string -> Booking -> W -> StoreResult * W;
  utcnow : W -> datetime * W
}.

(** The calls a handler makes to its collaborators, in order. *)
Inductive Event :=
| CreateDocument (collection_name : string) (data : Booking)
| UtcNow.

Record State (W : Type) := mk_State { world : W; trace : list Event }.
Arguments mk_State {W} world trace.
Arguments world {W} s.
Arguments trace {W} s.

Record JSONResponse := mk_JSONResponse {
  status_code : Z;
  content : gmap string PyVal
}.

(** [JSONResponse(content)]: the status code defaults to 200. *)
Definition JSONResponse_init (content : gmap string PyVal) : JSONResponse :=
  mk_JSONResponse 200 content.

Section Handlers.
Context {lib : Libraries} {W : Type} {env : Collaborators W}.

Definition call_create_document (collection_name : string)
    (data : Booking) : M (State W) string :=
  fun st =>
    let '(r, w) := create_document collection_name data (world st) in
    (match r with
     | Inserted id => Return id
     | Failed message => Raise (Exception message)
     end,
     mk_State w (trace st ++ [CreateDocument collection_name data])).

Definition call_utcnow : M (State W) datetime :=
  fun st =>
    let '(now, w) := utcnow (world st) in
    (Return now, mk_State w (trace st ++ [UtcNow])).

(** [datetime.fromisoformat(v)] *)
Definition call_fromisoformat (v : option PyVal) : M (State W) datetime :=
  match v with
  | Some (PStr s) =>
      match fromisoformat s with
      | Some dt => ret dt
      | None => raise (ValueError "Invalid isoformat string")
      end
  | _ => raise (Exception "fromisoformat: argument must be str")
  end.

(** [start + timedelta(hours=1)] *)
Definition plus_one_hour (start : datetime) : M (State W) datetime :=
  match add start (timedelta_of 0 1 0 0 0) with
  | Some end_ => ret end_
  | None => raise (OverflowError "date value out of range")
  end.

Definition build_ics (booking : Booking) : M (State W) string :=
  let start := preferred_datetime booking in
  end_ ← plus_one_hour start;
  let start_str := strftime start "%Y%m%dT%H%M%S" in
  let end_str := strftime end_ "%Y%m%dT%H%M%S" in
  now ← call_utcnow;
  let now_str := strftime now "%Y%m%dT%H%M%SZ" in
  let uid := "booking-" +:+ start_str +:+ "-" +:+ email booking in
  let summary :=
    "Appointment: " +:+ service_text (service booking)
    +:+ " - Alankritha Naturals" in
  let description :=
    "Name: " +:+ name booking +:+ "\nPhone: " +:+ phone booking
    +:+ "\nNotes: " +:+ default EmptyString (notes booking) in
  let location := "Alankritha Naturals, Hyderabad" in
  let ics :=
    "BEGIN:VCALENDAR" +:+ NL
    +:+ "VERSION:2.0" +:+ NL
    +:+ "PRODID:-//Alankritha Naturals//Booking//EN" +:+ NL
    +:+ "BEGIN:VEVENT" +:+ NL
    +:+ "UID:" +:+ uid +:+ NL
    +:+ "DTSTAMP:" +:+ now_str +:+ NL
    +:+ "DTSTART:" +:+ start_str +:+ NL
    +:+ "DTEND:" +:+ end_str +:+ NL
    +:+ "SUMMARY:" +:+ summary +:+ NL
    +:+ "DESCRIPTION:" +:+ description +:+ NL
    +:+ "LOCATION:" +:+ location +:+ NL
    +:+ "END:VEVENT" +:+ NL
    +:+ "END:VCALENDAR" +:+ NL in
  ret ics.

(** Lines 112-116: a textual [preferred_datetime] is replaced, in the
    payload, by the [datetime] it parses to. *)
Definition coerce_preferred_datetime (payload : Payload)
    : M (State W) Payload :=
  if is_str (payload !! "preferred_datetime") then
    try_except
      (dt ← call_fromisoformat (payload !! "preferred_datetime");
       ret (<["preferred_datetime" := PDatetime dt]> payload))
      (fun _ =>
         raise (HTTPException 400
           (DetailStr "Invalid preferred_datetime format. Use ISO 8601.")))
  else ret payload.

(** Lines 110-120: the [Booking] built from the payload; a
    [ValidationError] becomes the 422 response. *)
Definition validated_booking (payload : Payload) : M (State W) Booking :=
  try_except
    (payload ← coerce_preferred_datetime payload;
     of_outcome (Booking_init payload))
    (fun e =>
       match e with
       | ValidationError errors =>
           raise (HTTPException 422 (DetailErrors errors))
       | _ => raise e
       end).

Definition create_booking (payload : Payload)
    : M (State W) JSONResponse :=
  booking ← validated_booking payload;
  booking_id ←
    try_except
      (call_create_document "booking" booking)
      (fun e =>
         raise (HTTPException 500
                  (DetailStr ("Database error: " +:+ str e))));
  ics ← build_ics booking;
  mret (JSONResponse_init
          (<["status" := PStr "success"]>
           (<["message" :=
                PStr "Appointment confirmed — we’ll call to confirm the time."]>
           (<["booking_id" := PStr booking_id]>
           (<["ics" := PStr ics]> ∅))))).
End Handlers.

(** *** The answer on the wire

    What FastAPI sends for a run of a handler.  A [JSONResponse] goes out
    with its status code and content, an [HTTPException] with its status
    code and its detail as body, both rendered by [json.dumps]; when the
    rendering fails, and for every other exception, the answer is 500
    with the text [Internal Server Error]. *)
Inductive Body :=
| JSONBody (content : gmap string PyVal)
| DetailBody (detail : Detail)
| PlainText (text : string).

Record HTTPAnswer := mk_HTTPAnswer { http_status : Z; body : Body }.

Definition internal_server_error : HTTPAnswer :=
  mk_HTTPAnswer 500 (PlainText "Internal Server Error").

Definition answer (o : Outcome JSONResponse) : HTTPAnswer :=
  match o with
  | Return response =>
      if dict_serializable (content response)
      then mk_HTTPAnswer (status_code response) (JSONBody (content response))
      else internal_server_error
  | Raise (HTTPException code detail) =>
      if detail_serializable detail
      then mk_HTTPAnswer code (DetailBody detail)
      else internal_server_error
  | Raise _ => internal_server_error
  end.

(** [POST /api/book]: the handler, then the answer FastAPI sends. *)
Definition post_api_book {lib : Libraries} {W : Type}
    {env : Collaborators W} (payload : Payload)
    : State W -> HTTPAnswer * State W :=
  fun st =>
    let r := create_booking payload st in
    (answer r.1, r.2).

(** The records [build_ics] writes for [booking], given the end of the
    appointment and the reading of the clock. *)
Definition vevent_records (booking : Booking) (end_ now : datetime)
    : list string :=
  [ "BEGIN:VCALENDAR";
    "VERSION:2.0";
    "PRODID:-//Alankritha Naturals//Booking//EN";
    "BEGIN:VEVENT";
    "UID:booking-"
      +:+ strftime (preferred_datetime booking) "%Y%m%dT%H%M%S"
      +:+ "-" +:+ email booking;
    "DTSTAMP:" +:+ strftime now "%Y%m%dT%H%M%SZ";
    "DTSTART:" +:+ strftime (preferred_datetime booking) "%Y%m%dT%H%M%S";
    "DTEND:" +:+ strftime end_ "%Y%m%dT%H%M%S";
    "SUMMARY:Appointment: " +:+ service_text (service booking)
      +:+ " - Alankritha Naturals";
    "DESCRIPTION:Name: " +:+ name booking +:+ "\nPhone: "
      +:+ phone booking +:+ "\nNotes: "
      +:+ default EmptyString (notes booking);
    "LOCATION:Alankritha Naturals, Hyderabad";
    "END:VEVENT";
    "END:VCALENDAR" ].

(** The keys of the lines that describe the appointment. *)
Definition invite_keys : list string :=
  ["UID:"; "DTSTART:"; "DTEND:"; "SUMMARY:"; "DESCRIPTION:"; "LOCATION:"]%string.

(** *** The diagnostics handler *)

(** What a probe of the storage collaborator comes to: it raises
    [ImportError], it raises another exception [e], or it answers.  An
    exception is kept as the text [str(e)]. *)
Inductive Probed (A : Type) :=
| RaisesImportError (message : string)
| Raises (message : string)
| Answers (a : A).
Arguments RaisesImportError {A} message.
Arguments Raises {A} message.
Arguments Answers {A} a.

Definition of_probed {S A} (r : Probed A) : M S A :=
  match r with
  | RaisesImportError message => raise (ImportError message)
  | Raises message => raise (Exception message)
  | Answers a => ret a
  end.

(** The storage handle [database.db]: its [name] attribute when it has
    one, and what [list_collection_names()] does. *)
Record DbHandle := mk_DbHandle {
  db_name : option string;
  list_collection_names : Probed (list string)
}.

(** What the diagnostics handler finds around it: the effect of
    [from database import db] ([Answers None] when [db] is [None]) and
    the process environment. *)
Record Probe := mk_Probe {
  import_db : Probed (option DbHandle);
  environ : gmap string string
}.

(** Truth value of [os.getenv(key)]: set, and not the empty text. *)
Definition getenv_truthy (p : Probe) (key : string) : bool :=
  match environ p !! key with
  | Some v => negb (String.eqb v EmptyString)
  | None => false
  end.

Definition set_item (key : string) (v : PyVal) : M Payload unit :=
  modify (fun response => <[key := v]> response).

Definition initial_response : Payload :=
  <["backend" := PStr "✅ Running"]>
  (<["database" := PStr "❌ Not Available"]>
  (<["database_url" := PNone]>
  (<["database_name" := PNone]>
  (<["connection_status" := PStr "Not Connected"]>
  (<["collections" := PList []]> ∅))))).

Definition probe_database (p : Probe) : M Payload unit :=
  try_except
    (db ← of_probed (import_db p);
     match db with
     | Some db =>
         set_item "database" (PStr "✅ Available");;
         set_item "database_url" (PStr "✅ Configured");;
         set_item "database_name"
           (PStr (default "✅ Connected" (db_name db)));;
         set_item "connection_status" (PStr "Connected");;
         try_except
           (collections ← of_probed (list_collection_names db);
            set_item "collections"
              (PList (PStr <$> take 10 collections));;
            set_item "database" (PStr "✅ Connected & Working"))
           (fun e =>
              set_item "database"
                (PStr ("⚠️  Connected but Error: "
                       +:+ str_take 50 (str e))))
     | None =>
         set_item "database" (PStr "⚠️  Available but not initialized")
     end)
    (fun e =>
       match e with
       | ImportError _ =>
           set_item "database"
             (PStr "❌ Database module not found (run enable-database first)")
       | _ =>
           set_item "database"
             (PStr ("❌ Error: " +:+ str_take 50 (str e)))
       end).

Definition test_database_body (p : Probe) : M Payload Payload :=
  probe_database p;;
  set_item "database_url"
    (PStr (if getenv_truthy p "DATABASE_URL"
           then "✅ Set" else "❌ Not Set"));;
  set_item "database_name"
    (PStr (if getenv_truthy p "DATABASE_NAME"
           then "✅ Set" else "❌ Not Set"));;
  get.

(** [response] is a fresh dictionary at every call. *)
Definition test_database (p : Probe) : Outcome Payload :=
  fst (test_database_body p initial_response).

End Main.

(** ** Concrete libraries and collaborators

    Instances on which the handlers run end to end.  [fromisoformat]
    follows the format CPython documents for Python 3.7 to 3.10,
    [YYYY-MM-DD[*HH[:MM[:SS[.fff[fff]]]][+HH:MM[:SS[.ffffff]]]]]; the
    other two library functions are stand-ins. *)

Module Instances.
Import Schemas Main.

Definition is_digit (c : ascii) : bool :=
  let n := Ascii.nat_of_ascii c in ((48 <=? n) && (n <=? 57))%nat.

Definition digit_value (c : ascii) : Z := Z.of_nat (Ascii.nat_of_ascii c) - 48.

Fixpoint digits_from (acc : Z) (s : string) : option Z :=
  match s with
  | EmptyString => Some acc
  | String c r =>
      if is_digit c then digits_from (acc * 10 + digit_value c) r else None
  end.

(** The number written by a non-empty run of ASCII digits. *)
Definition digits (s : string) : option Z :=
  match s with
  | EmptyString => None
  | _ => digits_from 0 s
  end.

(** [s[i:j]] for [0 <= i <= j]. *)
Definition slice (i j : nat) (s : string) : string :=
  String.substring i (j - i) s.

(** [s[i:]] *)
Definition slice_from (i : nat) (s : string) : string :=
  String.substring i (String.length s - i) s.

Definition _parse_isoformat_date (dstr : string) : option (Z * Z * Z) :=
  y ← digits (slice 0 4 dstr);
  guard (String.eqb (slice 4 5 dstr) "-");;
  m ← digits (slice 5 7 dstr);
  guard (String.eqb (slice 7 8 dstr) "-");;
  d ← digits (slice 8 10 dstr);
  guard (String.length dstr =? 10)%nat;;
  Some (y, m, d).

Definition two_digits (s : string) : option (Z * string) :=
  match s with
  | String a (String b r) =>
      if is_digit a && is_digit b
      then Some (digit_value a * 10 + digit_value b, r)
      else None
  | _ => None
  end.

(** The fraction after the point: three or six digits. *)
Definition fraction (s : string) : option Z :=
  us ← digits s;
  if (String.length s =? 3)%nat then Some (us * 1000)
  else if (String.length s =? 6)%nat then Some us
  else None.

Definition _parse_hh_mm_ss_ff (tstr : string) : option (Z * Z * Z * Z) :=
  '(hh, r) ← two_digits tstr;
  match r with
  | EmptyString => Some (hh, 0, 0, 0)
  | String ":" r =>
      '(mm, r) ← two_digits r;
      match r with
      | EmptyString => Some (hh, mm, 0, 0)
      | String ":" r =>
          '(ss, r) ← two_digits r;
          match r with
          | EmptyString => Some (hh, mm, ss, 0)
          | String "." f => us ← fraction f; Some (hh, mm, ss, us)
          | _ => None
          end
      | _ => None
      end
  | _ => None
  end.

(** Position of the first [-], else of the first [+]. *)
Definition tz_position (tstr : string) : option nat :=
  match String.index 0 "-" tstr with
  | Some i => Some i
  | None => String.index 0 "+" tstr
  end.

Definition _parse_isoformat_time (tstr : string)
    : option (Z * Z * Z * Z * option Z) :=
  guard (2 <=? String.length tstr)%nat;;
  match tz_position tstr with
  | None => c ← _parse_hh_mm_ss_ff tstr; Some (c, None)
  | Some i =>
      c ← _parse_hh_mm_ss_ff (slice 0 i tstr);
      let tzstr := slice_from (S i) tstr in
      let n := String.length tzstr in
      guard ((n =? 5) || (n =? 8) || (n =? 15))%nat;;
      '(h, m, s, us) ← _parse_hh_mm_ss_ff tzstr;
      let td := timedelta_of 0 h m s us in
      let sign := if String.eqb (slice i (S i) tstr) "-" then -1 else 1 in
      guard (td <? US_PER_DAY);;
      Some (c, Some (sign * td))
  end.

Definition iso_fromisoformat (date_string : string) : option datetime :=
  guard (10 <=? String.length date_string)%nat;;
  '(y, m, d) ← _parse_isoformat_date (slice 0 10 date_string);
  '(hh, mm, ss, us, tz) ←
    (let tstr := slice_from 11 date_string in
     if String.eqb tstr EmptyString then Some (0, 0, 0, 0, None)
     else _parse_isoformat_time tstr);
  let dt := mk_datetime y m d hh mm ss us tz in
  guard (validb dt);;
  Some dt.

(** A stand-in for the e-mail syntax check: one [@] with text on both
    sides and a dot in the domain; the address is returned as it is. *)
Definition simple_validate_email (s : string) : option string :=
  match String.index 0 "@" s with
  | Some i =>
      let domain := slice_from (S i) s in
      if (0 <? i)%nat
         && bool_decide (String.index 0 "@" domain = None)
         && bool_decide (is_Some (String.index 1 "." domain))
         && no_LF s
      then Some s else None
  | None => None
  end.

(** A stand-in for pydantic's coercions to [datetime]: none. *)
Definition no_lax_datetime (v : PyVal) : option datetime := None.

Definition libraries : Libraries :=
  {| fromisoformat := iso_fromisoformat;
     validate_email := simple_validate_email;
     lax_datetime := no_lax_datetime |}.

(** A world: the documents stored so far, whether the store answers,
    and the reading of the clock. *)
Record World := mk_World {
  documents : list (string * Booking);
  online : bool;
  clock : datetime
}.

Definition store_create_document (collection_name : string)
    (data : Booking) (w : World) : StoreResult * World :=
  if online w then
    (Inserted ("doc-" +:+ pretty (length (documents w))),
     mk_World (documents w ++ [(collection_name, data)]) (online w)
              (clock w))
  else (Failed "connection refused", w).

Definition collaborators : Collaborators World :=
  {| create_document := store_create_document;
     utcnow := fun w => (clock w, w) |}.

Definition world0 : World :=
  mk_World [] true (mk_datetime 2025 5 20 8 15 30 0 None).

Definition offline : World :=
  mk_World [] false (mk_datetime 2025 5 20 8 15 30 0 None).

Definition state0 : State World := mk_State world0 [].

(** The payload of the end-to-end example of the specification. *)
Definition jane : Payload :=
  <["name" := PStr "Jane Doe"]>
  (<["phone" := PStr "1234567890"]>
  (<["email" := PStr "jane@example.com"]>
  (<["service" := PStr "Facials"]>
  (<["preferred_datetime" := PStr "2025-06-01T10:00:00"]> ∅)))).

Definition jane_booking : Booking :=
  mk_Booking "Jane Doe" "1234567890" "jane@example.com" Facials
             (mk_datetime 2025 6 1 10 0 0 0 None) None pending.

Definition run (payload : Payload) (st : State World)
    : Outcome JSONResponse * State World :=
  @create_booking libraries World collaborators payload st.

(** [POST /api/book] on these instances. *)
Definition post (payload : Payload) (st : State World)
    : HTTPAnswer * State World :=
  @post_api_book libraries World collaborators payload st.

(** The response to the payload above, in the first state. *)
Definition jane_response : JSONResponse :=
  Eval vm_compute in
    match (run jane state0).1 with
    | Return response => response
    | Raise _ => JSONResponse_init ∅
    end.

End Instances.


Import Schemas Main.

(** * Properties *)

(** ** Text *)

Lemma append_cons (x : ascii) (a b : string) :
  String x a +:+ b = String x (a +:+ b).
Proof. reflexivity. Qed.

Lemma append_nil (b : string) : EmptyString +:+ b = b.
Proof. reflexivity. Qed.

Lemma append_nil_r (a : string) : a +:+ EmptyString = a.
Proof.
  induction a as [|x a IH]; [reflexivity|]. by rewrite append_cons, IH.
Qed.

Lemma append_assoc (a b c : string) : (a +:+ b) +:+ c = a +:+ b +:+ c.
Proof.
  induction a as [|x a IH]; [reflexivity|].
  rewrite !append_cons. by f_equal.
Qed.

Lemma lines_not_nil (s : string) : lines s ≠ [].
Proof.
  induction s as [|c s IH]; simpl; [done|].
  destruct (Ascii.eqb c LF); [done|]. by destruct (lines s).
Qed.

Lemma lines_app_NL (a b : string) :
  lines (a +:+ NL +:+ b) = lines a ++ lines b.
Proof.
  induction a as [|c a IH]; [reflexivity|].
  change (String c a +:+ NL +:+ b) with (String c (a +:+ NL +:+ b)).
  cbn [lines]. rewrite IH.
  destruct (Ascii.eqb c LF); [reflexivity|].
  pose proof (lines_not_nil a) as Hne.
  by destruct (lines a).
Qed.

Lemma lines_join (records : list string) :
  lines (join records) = flat_map lines records ++ [EmptyString].
Proof.
  induction records as [|r rs IH]; [reflexivity|].
  cbn [join flat_map]. by rewrite lines_app_NL, IH, <- app_assoc.
Qed.

Lemma lines_no_LF (s : string) : no_LF s = true → lines s = [s].
Proof.
  induction s as [|c s IH]; [reflexivity|]. cbn [no_LF lines].
  intros [Hc Hs]%andb_true_iff. apply negb_true_iff in Hc.
  rewrite Hc, (IH Hs). reflexivity.
Qed.

Lemma no_LF_app (a b : string) : no_LF (a +:+ b) = no_LF a && no_LF b.
Proof.
  induction a as [|c a IH]; [reflexivity|].
  rewrite append_cons. cbn [no_LF]. by rewrite IH, andb_assoc.
Qed.

Lemma digit_char_not_LF (d : Z) : Ascii.eqb (digit_char d) LF = false.
Proof.
  unfold digit_char.
  assert (Z.to_nat (d mod 10) < 10)%nat as Hlt
    by (pose proof (Z.mod_pos_bound d 10); lia).
  destruct (Z.to_nat (d mod 10)) as [|k]; [reflexivity|].
  do 9 (destruct k as [|k]; [reflexivity|]). lia.
Qed.

Lemma no_LF_zero_padded (width : nat) (n : Z) :
  no_LF (zero_padded width n) = true.
Proof.
  revert n. induction width as [|w IH]; intros n; [reflexivity|].
  cbn [zero_padded]. rewrite no_LF_app, IH. cbn [no_LF].
  by rewrite digit_char_not_LF.
Qed.

Lemma strftime_compact (dt : datetime) :
  strftime dt "%Y%m%dT%H%M%S"
  = zero_padded 4 (year dt) +:+ zero_padded 2 (month dt)
    +:+ zero_padded 2 (day dt) +:+ "T" +:+ zero_padded 2 (hour dt)
    +:+ zero_padded 2 (minute dt) +:+ zero_padded 2 (second dt).
Proof.
  cbn [strftime Ascii.eqb Bool.eqb].
  by rewrite ?append_cons, ?append_nil, append_nil_r.
Qed.

Lemma no_LF_strftime_compact (dt : datetime) :
  no_LF (strftime dt "%Y%m%dT%H%M%S") = true.
Proof.
  rewrite strftime_compact, !no_LF_app, !no_LF_zero_padded. reflexivity.
Qed.

Lemma no_LF_service_text (s : Service) : no_LF (service_text s) = true.
Proof. by destruct s. Qed.

(** A record without line feed is a line of the joined text. *)
Lemma record_in_lines (r : string) (records : list string) :
  r ∈ records → no_LF r = true → r ∈ lines (join records).
Proof.
  intros Hin Hr. rewrite lines_join. apply elem_of_app. left.
  apply list_elem_of_In, in_flat_map. exists r. split.
  - by apply list_elem_of_In.
  - rewrite (lines_no_LF r Hr). by left.
Qed.

(** ** Running the handlers *)

Ltac unfold_M :=
  unfold mbind, M_bind, bind, mret, M_ret, ret, raise, of_outcome,
    try_except, modify, get in *.

Section Runs.
Context {lib : Libraries} {W : Type} {env : Collaborators W}.
Implicit Types (payload : Payload) (st : State W) (booking : Booking).

(** [build_ics] either overflows before it reads the clock, or reads
    the clock once and returns the joined records. *)
Lemma build_ics_run booking st :
  build_ics booking st =
  match add (preferred_datetime booking) (timedelta_of 0 1 0 0 0) with
  | None => (Raise (OverflowError "date value out of range"), st)
  | Some end_ =>
      (Return (join (vevent_records booking end_ (utcnow (world st)).1)),
       mk_State (utcnow (world st)).2 (trace st ++ [UtcNow]))
  end.
Proof.
  unfold build_ics, plus_one_hour, call_utcnow. unfold_M.
  destruct (add _ _) as [end_|]; [|reflexivity].
  by destruct (utcnow (world st)) as [now w].
Qed.

Lemma coerce_preferred_datetime_run payload st :
  coerce_preferred_datetime payload st =
  (match payload !! "preferred_datetime" with
   | Some (PStr s) =>
       match fromisoformat s with
       | Some dt => Return (<["preferred_datetime" := PDatetime dt]> payload)
       | None =>
           Raise (HTTPException 400
             (DetailStr "Invalid preferred_datetime format. Use ISO 8601."))
       end
   | _ => Return payload
   end, st).
Proof.
  unfold coerce_preferred_datetime, call_fromisoformat.
  destruct (payload !! "preferred_datetime") as [[]|]; cbn [is_str];
    try reflexivity.
  unfold_M. by destruct (fromisoformat s).
Qed.

Lemma coerce_preferred_datetime_state payload st o st' :
  coerce_preferred_datetime payload st = (o, st') → st' = st.
Proof. rewrite coerce_preferred_datetime_run. congruence. Qed.

(** [Booking] raises nothing but [ValidationError]. *)
Lemma Booking_init_raises payload e :
  Booking_init payload = Raise e → e = ValidationError (all_errors payload).
Proof.
  unfold Booking_init.
  destruct (check_name payload), (check_phone payload),
    (check_email_field payload), (check_service payload),
    (check_preferred_datetime payload), (check_notes payload),
    (check_status payload); congruence.
Qed.

(** The outcome of lines 110-120, given the coerced payload. *)
Lemma validated_booking_coerced payload payload' st st' :
  coerce_preferred_datetime payload st = (Return payload', st') →
  validated_booking payload st =
  (match Booking_init payload' with
   | Return b => Return b
   | Raise _ =>
       Raise (HTTPException 422 (DetailErrors (all_errors payload')))
   end, st).
Proof.
  intros Hc. pose proof (coerce_preferred_datetime_state _ _ _ _ Hc) as ->.
  unfold validated_booking. unfold_M. rewrite Hc.
  destruct (Booking_init payload') as [b|e] eqn:Hb; [reflexivity|].
  by rewrite (Booking_init_raises _ _ Hb).
Qed.

Lemma validated_booking_rejected_text payload st d :
  coerce_preferred_datetime payload st = (Raise (HTTPException 400 d), st) →
  validated_booking payload st = (Raise (HTTPException 400 d), st).
Proof. intros Hc. unfold validated_booking. unfold_M. by rewrite Hc. Qed.

(** Validation neither calls a collaborator nor changes the world. *)
Lemma validated_booking_state payload st o st' :
  validated_booking payload st = (o, st') → st' = st.
Proof.
  pose proof (coerce_preferred_datetime_run payload st) as Hc.
  destruct (payload !! "preferred_datetime") as [[]|] eqn:Hpd;
    try (rewrite (validated_booking_coerced _ _ _ _ Hc); congruence).
  destruct (fromisoformat s).
  - rewrite (validated_booking_coerced _ _ _ _ Hc); congruence.
  - rewrite (validated_booking_rejected_text _ _ _ Hc); congruence.
Qed.

Lemma create_booking_rejected payload st e :
  validated_booking payload st = (Raise e, st) →
  create_booking payload st = (Raise e, st).
Proof. intros Hv. unfold create_booking. unfold_M. by rewrite Hv. Qed.

(** What the handler does once the [Booking] is built. *)
Lemma create_booking_accepted payload st booking :
  validated_booking payload st = (Return booking, st) →
  create_booking payload st =
  let st1 :=
    mk_State (create_document "booking" booking (world st)).2
             (trace st ++ [CreateDocument "booking" booking]) in
  match (create_document "booking" booking (world st)).1 with
  | Failed message =>
      (Raise (HTTPException 500
                (DetailStr ("Database error: " +:+ message))), st1)
  | Inserted booking_id =>
      match build_ics booking st1 with
      | (Return ics, st2) =>
          (Return (JSONResponse_init
             (<["status" := PStr "success"]>
              (<["message" :=
                   PStr "Appointment confirmed — we’ll call to confirm the time."]>
              (<["booking_id" := PStr booking_id]>
              (<["ics" := PStr ics]> ∅))))), st2)
      | (Raise e, st2) => (Raise e, st2)
      end
  end.
Proof.
  intros Hv. unfold create_booking, call_create_document. unfold_M.
  rewrite Hv.
  destruct (create_document "booking" booking (world st)) as [[id|msg] w];
    cbn [fst snd]; [|reflexivity].
  by destruct (build_ics booking _) as [[ics|e] st2].
Qed.
End Runs.

(** ** The booking endpoint *)

(** C1. For the payload of Jane Doe (Facials, text timestamp
    2025-06-01T10:00:00), with libraries that read that text as that
    instant and accept the address, and a store that answers the insert
    with an identifier [id], [create_booking] returns a response of
    status 200 whose [status] is "success", whose [booking_id] is [id]
    (non-empty when the store's identifier is) and whose [ics] text has
    the lines DTSTART:20250601T100000 and DTEND:20250601T110000. *)
Theorem C1_end_to_end {lib : Libraries} {W : Type} {env : Collaborators W}
    (st : State W) (id : string) (w' : W) :
  fromisoformat "2025-06-01T10:00:00"
    = Some (mk_datetime 2025 6 1 10 0 0 0 None) →
  validate_email "jane@example.com" = Some "jane@example.com"%string →
  create_document "booking" Instances.jane_booking (world st)
    = (Inserted id, w') →
  id ≠ EmptyString →
  ∃ (response : JSONResponse) (st' : State W) (ics : string),
    create_booking Instances.jane st = (Return response, st')
    ∧ status_code response = 200
    ∧ content response !! "status" = Some (PStr "success")
    ∧ content response !! "booking_id" = Some (PStr id)
    ∧ id ≠ EmptyString
    ∧ content response !! "ics" = Some (PStr ics)
    ∧ "DTSTART:20250601T100000"%string ∈ lines ics
    ∧ "DTEND:20250601T110000"%string ∈ lines ics.
Proof.
  intros Hiso Hmail Hstore Hid.
  assert (validated_booking Instances.jane st
          = (Return Instances.jane_booking, st)) as Hv.
  { erewrite validated_booking_coerced.
    2:{ rewrite coerce_preferred_datetime_run.
        replace (Instances.jane !! "preferred_datetime")
          with (Some (PStr "2025-06-01T10:00:00")) by reflexivity.
        by rewrite Hiso. }
    unfold Booking_init, check_name, check_phone, check_email_field,
      check_service, check_preferred_datetime, check_notes, check_status,
      field.
    repeat match goal with
    | |- context [ ?m !! ?k ] =>
        let v := eval vm_compute in (m !! k) in
        change (m !! k) with v
    end.
    cbn [check_email]. rewrite Hmail. reflexivity. }
  rewrite (create_booking_accepted _ _ _ Hv), Hstore. cbn [fst snd].
  rewrite build_ics_run.
  replace (add _ _) with (Some (mk_datetime 2025 6 1 11 0 0 0 None))
    by reflexivity.
  eexists _, _, _. split; [reflexivity|].
  repeat split; try done.
  - apply record_in_lines; [|reflexivity].
    by apply (list_elem_of_lookup_2 _ 6%nat).
  - apply record_in_lines; [|reflexivity].
    by apply (list_elem_of_lookup_2 _ 7%nat).
Qed.

Lemma C1_end_to_end_witness :
  ∃ response st' ics,
    Instances.run Instances.jane Instances.state0 = (Return response, st')
    ∧ status_code response = 200
    ∧ content response !! "status" = Some (PStr "success")
    ∧ content response !! "booking_id" = Some (PStr "doc-0")
    ∧ "doc-0"%string ≠ EmptyString
    ∧ content response !! "ics" = Some (PStr ics)
    ∧ "DTSTART:20250601T100000"%string ∈ lines ics
    ∧ "DTEND:20250601T110000"%string ∈ lines ics.
Proof.
  apply (@C1_end_to_end Instances.libraries _ Instances.collaborators
           Instances.state0 "doc-0" (snd (Instances.store_create_document
             "booking" Instances.jane_booking Instances.world0)));
    [reflexivity | reflexivity | reflexivity | discriminate].
Defined.

(** C4. A payload whose [preferred_datetime] is a text that
    [datetime.fromisoformat] does not parse is answered with status 400
    and the fixed message, whatever its other fields hold; the state is
    left as it was, so [create_document] is not called. *)
Theorem C4_unparsable_text_400 {lib : Libraries} {W : Type}
    {env : Collaborators W} (payload : Payload) (s : string) (st : State W) :
  payload !! "preferred_datetime" = Some (PStr s) →
  fromisoformat s = None →
  create_booking payload st =
  (Raise (HTTPException 400
     (DetailStr "Invalid preferred_datetime format. Use ISO 8601.")), st).
Proof.
  intros Hpd Hiso. apply create_booking_rejected.
  apply validated_booking_rejected_text.
  by rewrite coerce_preferred_datetime_run, Hpd, Hiso.
Qed.

Lemma C4_unparsable_text_400_witness :
  Instances.run (<["preferred_datetime" := PStr "not-a-date"]> Instances.jane)
                Instances.state0 =
  (Raise (HTTPException 400
     (DetailStr "Invalid preferred_datetime format. Use ISO 8601.")),
   Instances.state0).
Proof.
  apply (@C4_unparsable_text_400 Instances.libraries _ Instances.collaborators
           _ "not-a-date"); reflexivity.
Defined.

(** C8. When the [Booking] has been built and the single call
    [create_document("booking", booking)] raises, the handler raises
    [HTTPException] 500 whose detail is "Database error: " followed by
    the failure's message; the trace gains that one call and nothing
    else (no second attempt, no clock read, so no invite), and the world
    is the one the failed insert left. *)
Theorem C8_persistence_failure_500 {lib : Libraries} {W : Type}
    {env : Collaborators W} (payload : Payload) (st : State W)
    (booking : Booking) (message : string) (w' : W) :
  validated_booking payload st = (Return booking, st) →
  create_document "booking" booking (world st) = (Failed message, w') →
  create_booking payload st =
  (Raise (HTTPException 500 (DetailStr ("Database error: " +:+ message))),
   mk_State w' (trace st ++ [CreateDocument "booking" booking])).
Proof.
  intros Hv Hstore. by rewrite (create_booking_accepted _ _ _ Hv), Hstore.
Qed.

Lemma C8_persistence_failure_500_witness :
  Instances.run Instances.jane (mk_State Instances.offline []) =
  (Raise (HTTPException 500
            (DetailStr "Database error: connection refused")),
   mk_State Instances.offline
            [CreateDocument "booking" Instances.jane_booking]).
Proof.
  apply (@C8_persistence_failure_500 Instances.libraries _
           Instances.collaborators Instances.jane
           (mk_State Instances.offline []) Instances.jane_booking
           "connection refused" Instances.offline); reflexivity.
Defined.

(** ** The schema *)

Section Schema.
Context {lib : Libraries}.
Implicit Types (data : Payload) (key : string).

Lemma check_str_error (lo hi : nat) (v : PyVal) :
  is_error (check_str (Some lo) (Some hi) v) = true
  ↔ ¬ ∃ s, v = PStr s ∧ (lo <= String.length s <= hi)%nat.
Proof.
  destruct v; cbn [check_str is_error];
    try (split; [intros _ (? & ? & _); discriminate | done]).
  destruct (Nat.ltb_spec (String.length s) lo);
    [|destruct (Nat.ltb_spec hi (String.length s))]; cbn [is_error].
  - split; [|done]. intros _ (? & [= <-] & ?). lia.
  - split; [|done]. intros _ (? & [= <-] & ?). lia.
  - split; [done|]. intros []. exists s. split; [done | lia].
Qed.

Lemma check_literal_ok {A} (members : list A) (text : A → string)
    (v : PyVal) (m : A) :
  check_literal members text v = inr m → v = PStr (text m) ∧ m ∈ members.
Proof.
  destruct v; cbn [check_literal]; try discriminate.
  destruct (List.find _ members) as [m'|] eqn:Hfind; [|discriminate].
  intros [= <-]. apply find_some in Hfind as [Hin Heq].
  apply String.eqb_eq in Heq. split; [by rewrite Heq|].
  by apply list_elem_of_In.
Qed.

Lemma check_literal_error {A} (members : list A) (text : A → string)
    (v : PyVal) :
  (∀ m, m ∈ members) →
  is_error (check_literal members text v) = true
  ↔ ¬ ∃ m, v = PStr (text m).
Proof.
  intros Hall. destruct v; cbn [check_literal is_error];
    try (split; [intros _ (? & ?); discriminate | done]).
  destruct (List.find _ members) as [m|] eqn:Hfind; cbn [is_error].
  - apply find_some in Hfind as [_ Heq]. apply String.eqb_eq in Heq.
    split; [done|]. intros []. exists m. by rewrite Heq.
  - split; [|done]. intros _ [m [= ->]].
    eapply find_none in Hfind; [|apply list_elem_of_In, (Hall m)].
    by rewrite String.eqb_refl in Hfind.
Qed.

Lemma all_services (m : Service) : m ∈ services.
Proof. destruct m; unfold services; set_solver. Qed.

Lemma all_statuses (m : Status) : m ∈ statuses.
Proof. destruct m; unfold statuses; set_solver. Qed.

Lemma check_name_error data :
  is_error (check_name data) = true
  ↔ ¬ ∃ s, data !! "name" = Some (PStr s)
           ∧ (2 <= String.length s <= 100)%nat.
Proof.
  unfold check_name, field. destruct (data !! "name") as [v|].
  - rewrite check_str_error. naive_solver.
  - naive_solver.
Qed.

Lemma check_phone_error data :
  is_error (check_phone data) = true
  ↔ ¬ ∃ s, data !! "phone" = Some (PStr s)
           ∧ (7 <= String.length s <= 20)%nat.
Proof.
  unfold check_phone, field. destruct (data !! "phone") as [v|].
  - rewrite check_str_error. naive_solver.
  - naive_solver.
Qed.

Lemma check_email_field_error data :
  is_error (check_email_field data) = true
  ↔ ¬ ∃ s, data !! "email" = Some (PStr s) ∧ is_Some (validate_email s).
Proof.
  unfold check_email_field, field, check_email.
  destruct (data !! "email") as [[]|]; cbn [is_error];
    try (split; [intros _ (? & ? & _); discriminate | done]).
  destruct (validate_email s) eqn:Hs; cbn [is_error].
  - split; [done|]. intros []. exists s. by rewrite Hs.
  - split; [|done]. intros _ (? & [= <-] & [? ?]). congruence.
Qed.

Lemma check_service_error data :
  is_error (check_service data) = true
  ↔ ¬ ∃ m, data !! "service" = Some (PStr (service_text m)).
Proof.
  unfold check_service, field. destruct (data !! "service") as [v|].
  - rewrite (check_literal_error _ _ _ all_services). naive_solver.
  - naive_solver.
Qed.

Lemma check_preferred_datetime_error data :
  is_error (check_preferred_datetime data) = true
  ↔ ¬ ((∃ dt, data !! "preferred_datetime" = Some (PDatetime dt))
       ∨ ∃ v, data !! "preferred_datetime" = Some v
              ∧ is_Some (lax_datetime v)).
Proof.
  unfold check_preferred_datetime, field.
  destruct (data !! "preferred_datetime") as [v|]; cbn [is_error].
  2:{ split; [|done]. by intros _ [[? [=]]|(? & [=] & _)]. }
  assert (is_error (match lax_datetime v with
                    | Some dt => inr dt
                    | None => inl datetime_type
                    end) = true
          ↔ ¬ is_Some (lax_datetime v)) as Hlax.
  { destruct (lax_datetime v); cbn [is_error].
    - split; [done|]. intros []. by eexists.
    - split; [|done]. by intros _ [? [=]]. }
  destruct v; cbn [check_datetime]; try rewrite Hlax.
  6:{ cbn [is_error]. split; [done|]. intros []. left. by eexists. }
  all: split;
    [ intros Hn [[? [=]]|(? & [= <-] & ?)]; by apply Hn
    | intros Hn ?; apply Hn; right; by eexists ].
Qed.

Lemma check_notes_error data :
  is_error (check_notes data) = true
  ↔ ¬ (data !! "notes" = None ∨ data !! "notes" = Some PNone
       ∨ ∃ s, data !! "notes" = Some (PStr s)
              ∧ (String.length s <= 1000)%nat).
Proof.
  unfold check_notes, field, check_optional, check_str.
  destruct (data !! "notes") as [v|]; cbn [is_error].
  2:{ split; [done|]. intros []. by left. }
  destruct v; cbn [is_error];
    try (split; [|done]; by intros _ [[=]|[[=]|(? & [=] & _)]]).
  - split; [done|]. intros []. right. by left.
  - destruct (Nat.ltb_spec 1000 (String.length s)); cbn [is_error].
    + split; [|done]. intros _ [[=]|[[=]|(? & [= <-] & ?)]]. lia.
    + split; [done|]. intros []. right. right. exists s. split; [done|lia].
Qed.

Lemma check_status_error data :
  is_error (check_status data) = true
  ↔ ¬ (data !! "status" = None
       ∨ ∃ m, data !! "status" = Some (PStr (status_text m))).
Proof.
  unfold check_status, field. destruct (data !! "status") as [v|].
  - rewrite (check_literal_error _ _ _ all_statuses). naive_solver.
  - cbn [is_error]. naive_solver.
Qed.

Lemma field_errors_loc {A} data (k key : string) (c : Checked A) :
  key ∈ loc <$> field_errors data k c ↔ key = k ∧ is_error c = true.
Proof.
  destruct c; cbn [field_errors is_error fmap list_fmap loc].
  - rewrite list_elem_of_singleton. naive_solver.
  - rewrite elem_of_nil. naive_solver.
Qed.

(** The error list names exactly the fields that violate their
    constraint. *)
Lemma all_errors_locs data key :
  key ∈ loc <$> all_errors data ↔ violates data key.
Proof.
  unfold all_errors, violates.
  rewrite !fmap_app, !elem_of_app, !field_errors_loc.
  rewrite check_name_error, check_phone_error, check_email_field_error,
    check_service_error, check_preferred_datetime_error, check_notes_error,
    check_status_error.
  split; intros H;
    repeat (destruct H as [[-> H]|H]; [tauto|]);
    destruct H as [-> H]; tauto.
Qed.

Lemma Booking_init_ok data booking :
  Booking_init data = Return booking → all_errors data = [].
Proof.
  unfold Booking_init, all_errors.
  destruct (check_name data), (check_phone data),
    (check_email_field data), (check_service data),
    (check_preferred_datetime data), (check_notes data),
    (check_status data); try discriminate. reflexivity.
Qed.

Lemma Booking_init_fails data e :
  Booking_init data = Raise e → all_errors data ≠ [].
Proof.
  unfold Booking_init, all_errors.
  destruct (check_name data), (check_phone data),
    (check_email_field data), (check_service data),
    (check_preferred_datetime data), (check_notes data),
    (check_status data); try discriminate; intros _;
    cbn [field_errors app]; discriminate.
Qed.

(** [Booking] reads the payload at the field names only. *)
Lemma Booking_init_ext data data2 booking :
  (∀ key, key ∈ fields → data !! key = data2 !! key) →
  Booking_init data = Return booking →
  Booking_init data2 = Return booking.
Proof.
  intros Hagree.
  assert (check_name data = check_name data2
          ∧ check_phone data = check_phone data2
          ∧ check_email_field data = check_email_field data2
          ∧ check_service data = check_service data2
          ∧ check_preferred_datetime data = check_preferred_datetime data2
          ∧ check_notes data = check_notes data2
          ∧ check_status data = check_status data2)
    as (Hn & Hp & He & Hs & Hd & Ho & Ht).
  { unfold check_name, check_phone, check_email_field, check_service,
      check_preferred_datetime, check_notes, check_status, field.
    rewrite !Hagree by (unfold fields; set_solver). done. }
  unfold Booking_init. rewrite Hn, Hp, He, Hs, Hd, Ho, Ht.
  destruct (check_name data2), (check_phone data2),
    (check_email_field data2), (check_service data2),
    (check_preferred_datetime data2), (check_notes data2),
    (check_status data2); done.
Qed.

Lemma Booking_init_status data booking :
  Booking_init data = Return booking →
  (data !! "status" = None → status booking = pending)
  ∧ (∀ v, data !! "status" = Some v
          → v = PStr (status_text (status booking))).
Proof.
  unfold Booking_init.
  destruct (check_name data), (check_phone data),
    (check_email_field data), (check_service data),
    (check_preferred_datetime data), (check_notes data),
    (check_status data) as [|st] eqn:Hst; try discriminate.
  intros [= <-]. cbn [status]. unfold check_status, field in Hst.
  destruct (data !! "status") as [v|].
  - apply check_literal_ok in Hst as [-> _]. split; [done|]. by intros ? [= <-].
  - injection Hst as <-. done.
Qed.

Lemma Booking_init_preferred_datetime data booking dt :
  data !! "preferred_datetime" = Some (PDatetime dt) →
  Booking_init data = Return booking →
  preferred_datetime booking = dt.
Proof.
  intros Hpd. unfold Booking_init.
  destruct (check_name data), (check_phone data),
    (check_email_field data), (check_service data),
    (check_preferred_datetime data) as [|d] eqn:Hd, (check_notes data),
    (check_status data); try discriminate.
  intros [= <-]. cbn [preferred_datetime].
  unfold check_preferred_datetime, field in Hd. rewrite Hpd in Hd.
  cbn [check_datetime] in Hd. congruence.
Qed.
End Schema.

(** ** Validation at the endpoint *)

Section Endpoint.
Context {lib : Libraries} {W : Type} {env : Collaborators W}.
Implicit Types (payload : Payload) (st : State W) (booking : Booking).

(** Coercion touches the [preferred_datetime] key only. *)
Lemma coerce_preferred_datetime_other payload payload' st st' key :
  coerce_preferred_datetime payload st = (Return payload', st') →
  key ≠ "preferred_datetime"%string →
  payload' !! key = payload !! key.
Proof.
  rewrite coerce_preferred_datetime_run. intros Hc Hkey.
  destruct (payload !! "preferred_datetime") as [[]|];
    try (injection Hc as <- _; done).
  destruct (fromisoformat s); [|discriminate].
  injection Hc as <- _. by rewrite lookup_insert_ne.
Qed.

(** A payload that agrees, on the field names, with one that validates
    validates too, to the same [Booking]. *)
Lemma validated_booking_ext payload payload2 st booking :
  (∀ key, key ∈ fields → payload !! key = payload2 !! key) →
  validated_booking payload st = (Return booking, st) →
  validated_booking payload2 st = (Return booking, st).
Proof.
  intros Hagree.
  pose proof (coerce_preferred_datetime_run payload st) as Hc.
  pose proof (coerce_preferred_datetime_run payload2 st) as Hc2.
  rewrite <- (Hagree "preferred_datetime") in Hc2
    by (unfold fields; set_solver).
  assert (∀ data data2,
            (∀ key, key ∈ fields → data !! key = data2 !! key) →
            coerce_preferred_datetime payload st = (Return data, st) →
            coerce_preferred_datetime payload2 st = (Return data2, st) →
            validated_booking payload st = (Return booking, st) →
            validated_booking payload2 st = (Return booking, st)) as Hrun.
  { intros data data2 Hdata Hd Hd2.
    rewrite (validated_booking_coerced _ _ _ _ Hd),
      (validated_booking_coerced _ _ _ _ Hd2).
    destruct (Booking_init data) as [b|] eqn:Hb; [|discriminate].
    by rewrite (Booking_init_ext _ _ _ Hdata Hb). }
  destruct (payload !! "preferred_datetime") as [v|] eqn:Hpd;
    [|by apply (Hrun payload payload2)].
  destruct v; try (by apply (Hrun payload payload2)).
  destruct (fromisoformat s) as [dt|].
  - refine (Hrun _ _ _ Hc Hc2).
    intros key Hkey. rewrite !lookup_insert. case_decide; [done|].
    by apply Hagree.
  - by rewrite (validated_booking_rejected_text _ _ _ Hc).
Qed.

Lemma create_booking_ext payload payload2 st :
  validated_booking payload2 st = validated_booking payload st →
  create_booking payload2 st = create_booking payload st.
Proof. intros Hv. unfold create_booking. unfold_M. by rewrite Hv. Qed.

(** The trace of an accepted request: the insert of the validated
    record, then at most one reading of the clock. *)
Lemma create_booking_trace payload st booking :
  validated_booking payload st = (Return booking, st) →
  ∃ tail, trace (create_booking payload st).2
          = trace st ++ CreateDocument "booking" booking :: tail
          ∧ (tail = [] ∨ tail = [UtcNow]).
Proof.
  intros Hv. rewrite (create_booking_accepted _ _ _ Hv). cbn zeta.
  destruct (create_document "booking" booking (world st)) as [[id|msg] w];
    cbn [fst snd]; [|exists []; cbn [trace]; auto].
  rewrite build_ics_run.
  destruct (add _ _); cbn [fst snd trace].
  - exists [UtcNow]. by rewrite <- app_assoc; auto.
  - exists []. auto.
Qed.

(** The outcomes of the handler: the two client errors of validation
    with the state untouched, or what follows the insert. *)
Lemma create_booking_outcome payload st code d :
  (create_booking payload st).1 = Raise (HTTPException code d) →
  (validated_booking payload st = (Raise (HTTPException code d), st))
  ∨ code = 500.
Proof.
  destruct (validated_booking payload st) as [[b|e] st1] eqn:Hv;
    pose proof (validated_booking_state _ _ _ _ Hv) as ->.
  - rewrite (create_booking_accepted _ _ _ Hv). cbn zeta.
    destruct (create_document "booking" b (world st)) as [[id|msg] w];
      cbn [fst snd].
    + rewrite build_ics_run. destruct (add _ _); cbn [fst]; discriminate.
    + intros [= <- _]. by right.
  - rewrite (create_booking_rejected _ _ _ Hv). cbn [fst].
    intros [= ->]. by left.
Qed.
End Endpoint.

(** When the date step lets the payload through and building the
    [Booking] from it fails, the handler raises [HTTPException] 422 whose
    detail is the list of field errors; that list is not empty and names
    every field that violates its constraint, and no other; the state
    (world and trace) is untouched, so [create_document] is not called.
    In particular the handler raises it for a payload whose [service] is
    "Massage", with [service] among the fields named. *)
Lemma schema_failure_raises_422 {lib : Libraries} {W : Type}
    {env : Collaborators W} (payload payload' : Payload) (st st' : State W) :
  coerce_preferred_datetime payload st = (Return payload', st') →
  (∀ e, Booking_init payload' = Raise e →
     create_booking payload st
     = (Raise (HTTPException 422 (DetailErrors (all_errors payload'))), st)
     ∧ all_errors payload' ≠ []
     ∧ ∀ key, key ∈ loc <$> all_errors payload' ↔ violates payload' key)
  ∧ (payload !! "service" = Some (PStr "Massage") →
     create_booking payload st
     = (Raise (HTTPException 422 (DetailErrors (all_errors payload'))), st)
     ∧ "service"%string ∈ loc <$> all_errors payload').
Proof.
  intros Hc.
  assert (∀ e, Booking_init payload' = Raise e →
            create_booking payload st
            = (Raise (HTTPException 422
                        (DetailErrors (all_errors payload'))), st)) as H422.
  { intros e He. apply create_booking_rejected.
    by rewrite (validated_booking_coerced _ _ _ _ Hc), He. }
  split.
  - intros e He. split; [by eapply H422|].
    split; [by eapply Booking_init_fails|]. apply all_errors_locs.
  - intros Hsvc.
    assert ("service"%string ∈ loc <$> all_errors payload') as Hin.
    { apply all_errors_locs. unfold violates. do 3 right. left.
      split; [done|].
      rewrite (coerce_preferred_datetime_other _ _ _ _ _ Hc) by done.
      rewrite Hsvc. intros [m [= Hm]]. by destruct m. }
    split; [|done].
    destruct (Booking_init payload') as [b|e] eqn:Hb; [|by eapply H422].
    apply Booking_init_ok in Hb. rewrite Hb in Hin.
    by apply elem_of_nil in Hin.
Qed.

(** A payload with two bad fields and nothing missing: both are named,
    each with the value sent, and the answer is 422. *)
Example both_fields_reported :
  (Instances.post (<["service" := PStr "Massage"]>
                     (<["name" := PStr "J"]> Instances.jane))
                  Instances.state0).1
  = mk_HTTPAnswer 422
      (DetailBody
         (DetailErrors
            [mk_error "name" string_too_short (FieldValue (PStr "J"));
             mk_error "service" literal_error
                      (FieldValue (PStr "Massage"))])).
Proof. reflexivity. Qed.

(** C2 as stated fails: a payload that carries [status] = "confirmed" is
    persisted with that status. *)
Lemma C2_status_counterexample :
  ∃ booking,
    trace (Instances.run (<["status" := PStr "confirmed"]> Instances.jane)
                         Instances.state0).2
    = [CreateDocument "booking" booking; UtcNow]
    ∧ status booking = confirmed
    ∧ status booking ≠ pending.
Proof.
  exists (mk_Booking "Jane Doe" "1234567890" "jane@example.com" Facials
            (mk_datetime 2025 6 1 10 0 0 0 None) None confirmed).
  split; [reflexivity|]. split; [reflexivity | discriminate].
Qed.

(** C2, amended. The record the handler persists is the validated
    [Booking]; its status is [pending] when the payload has no [status]
    key, and when the payload has one, the key's value is the text of the
    record's status: the client's value is taken. *)
Theorem C2_status_of_persisted {lib : Libraries} {W : Type}
    {env : Collaborators W} (payload : Payload) (st : State W)
    (booking : Booking) :
  validated_booking payload st = (Return booking, st) →
  (∃ tail, trace (create_booking payload st).2
           = trace st ++ CreateDocument "booking" booking :: tail)
  ∧ (payload !! "status" = None → status booking = pending)
  ∧ (∀ v, payload !! "status" = Some v
          → v = PStr (status_text (status booking))).
Proof.
  intros Hv. split.
  { destruct (create_booking_trace _ _ _ Hv) as (tail & Ht & _). eauto. }
  destruct (coerce_preferred_datetime payload st) as [[payload'|e] st'] eqn:Hc.
  - rewrite (validated_booking_coerced _ _ _ _ Hc) in Hv.
    destruct (Booking_init payload') as [b|] eqn:Hb; [|discriminate].
    injection Hv as ->.
    rewrite <- (coerce_preferred_datetime_other _ _ _ _ "status" Hc) by done.
    by apply Booking_init_status.
  - exfalso. unfold validated_booking in Hv. unfold_M. rewrite Hc in Hv.
    rewrite coerce_preferred_datetime_run in Hc.
    destruct (payload !! "preferred_datetime") as [[]|]; try discriminate.
    destruct (fromisoformat s); [discriminate|].
    injection Hc as <- <-. discriminate.
Qed.

Lemma C2_status_of_persisted_witness :
  let payload := <["status" := PStr "failed"]> Instances.jane in
  ∃ booking,
    (∃ tail, trace (Instances.run payload Instances.state0).2
             = trace Instances.state0 ++ CreateDocument "booking" booking :: tail)
    ∧ (payload !! "status" = None → status booking = pending)
    ∧ (∀ v, payload !! "status" = Some v
            → v = PStr (status_text (status booking))).
Proof.
  intros payload.
  exists (mk_Booking "Jane Doe" "1234567890" "jane@example.com" Facials
            (mk_datetime 2025 6 1 10 0 0 0 None) None failed).
  apply (@C2_status_of_persisted Instances.libraries _ Instances.collaborators
           payload Instances.state0).
  reflexivity.
Defined.

(** C7. A [preferred_datetime] given as a text that
    [datetime.fromisoformat] reads as [dt] is handled exactly as the typed
    timestamp [dt]: the same validation result, the same [Booking] with
    [preferred_datetime] equal to [dt], and the same run of the handler in
    every state.  The text is accepted: the answer is never the 400 date
    error, no 422 names [preferred_datetime], and when no other field
    violates its constraint the [Booking] is built. *)
Theorem C7_text_as_typed_timestamp {lib : Libraries} {W : Type}
    {env : Collaborators W} (payload : Payload) (s : string) (dt : datetime)
    (st : State W) :
  fromisoformat s = Some dt →
  let text := <["preferred_datetime" := PStr s]> payload in
  let typed := <["preferred_datetime" := PDatetime dt]> payload in
  validated_booking text st = validated_booking typed st
  ∧ create_booking text st = create_booking typed st
  ∧ (∀ booking, validated_booking text st = (Return booking, st) →
       preferred_datetime booking = dt)
  ∧ (∀ d, (create_booking text st).1 ≠ Raise (HTTPException 400 d))
  ∧ (∀ errors,
       (create_booking text st).1
       = Raise (HTTPException 422 (DetailErrors errors)) →
       "preferred_datetime"%string ∉ loc <$> errors)
  ∧ ((∀ key, key ≠ "preferred_datetime"%string → ¬ violates typed key) →
     ∃ booking, validated_booking text st = (Return booking, st)).
Proof.
  intros Hiso text typed.
  assert (coerce_preferred_datetime text st = (Return typed, st)) as Hct.
  { rewrite coerce_preferred_datetime_run. unfold text.
    rewrite lookup_insert_eq, Hiso. unfold typed.
    by rewrite insert_insert_eq. }
  assert (coerce_preferred_datetime typed st = (Return typed, st)) as Hcd.
  { rewrite coerce_preferred_datetime_run. unfold typed.
    by rewrite lookup_insert_eq. }
  assert (validated_booking text st = validated_booking typed st) as Hv.
  { by rewrite (validated_booking_coerced _ _ _ _ Hct),
      (validated_booking_coerced _ _ _ _ Hcd). }
  assert (¬ violates typed "preferred_datetime") as Hpd.
  { unfold violates. intros H.
    repeat (destruct H as [[? H]|H]; [discriminate|]).
    destruct H as [[_ H]|[[? _]|[? _]]]; [|discriminate..].
    apply H. left. exists dt. unfold typed. by rewrite lookup_insert_eq. }
  split; [done|]. split; [by apply create_booking_ext|].
  split; [|split; [|split]].
  - intros booking Hb.
    rewrite (validated_booking_coerced _ _ _ _ Hct) in Hb.
    destruct (Booking_init typed) as [b|] eqn:Hinit; [|discriminate].
    injection Hb as ->.
    eapply Booking_init_preferred_datetime; [|done].
    unfold typed. by rewrite lookup_insert_eq.
  - intros d Hd. apply create_booking_outcome in Hd as [Hd|]; [|done].
    rewrite (validated_booking_coerced _ _ _ _ Hct) in Hd.
    by destruct (Booking_init typed).
  - intros errors He Hin.
    apply create_booking_outcome in He as [He|]; [|done].
    rewrite (validated_booking_coerced _ _ _ _ Hct) in He.
    destruct (Booking_init typed); [discriminate|].
    injection He as <-. by apply all_errors_locs in Hin.
  - intros Hother. rewrite (validated_booking_coerced _ _ _ _ Hct).
    destruct (Booking_init typed) as [b|e] eqn:Hinit; [by exists b|].
    exfalso. apply Booking_init_fails in Hinit.
    destruct (all_errors typed) as [|err errs] eqn:Hall; [done|].
    assert (loc err ∈ loc <$> all_errors typed) as Hin
      by (rewrite Hall; set_solver).
    apply all_errors_locs in Hin.
    destruct (decide (loc err = "preferred_datetime"%string)) as [Heq|Hne].
    + by rewrite Heq in Hin.
    + by apply (Hother _ Hne).
Qed.

Lemma C7_text_as_typed_timestamp_witness :
  let dt := mk_datetime 2025 6 1 10 0 0 0 None in
  let text :=
    <["preferred_datetime" := PStr "2025-06-01T10:00:00"]> Instances.jane in
  let typed := <["preferred_datetime" := PDatetime dt]> Instances.jane in
  let st := Instances.state0 in
  @validated_booking Instances.libraries _ text st
  = @validated_booking Instances.libraries _ typed st
  ∧ Instances.run text st = Instances.run typed st
  ∧ (∀ booking,
       @validated_booking Instances.libraries _ text st
       = (Return booking, st) →
       preferred_datetime booking = dt)
  ∧ (∀ d, (Instances.run text st).1 ≠ Raise (HTTPException 400 d))
  ∧ (∀ errors,
       (Instances.run text st).1
       = Raise (HTTPException 422 (DetailErrors errors)) →
       "preferred_datetime"%string ∉ loc <$> errors)
  ∧ ((∀ key, key ≠ "preferred_datetime"%string →
             ¬ @violates Instances.libraries typed key) →
     ∃ booking,
       @validated_booking Instances.libraries _ text st
       = (Return booking, st)).
Proof.
  apply (@C7_text_as_typed_timestamp Instances.libraries _
           Instances.collaborators Instances.jane "2025-06-01T10:00:00"
           (mk_datetime 2025 6 1 10 0 0 0 None) Instances.state0).
  reflexivity.
Defined.

(** C10. When the recognised fields of a payload satisfy the
    constraints, that is, when the payload without its keys that name no
    field of [Booking] validates, the payload with those keys validates
    too, to the same [Booking]: the unknown keys raise no error and are
    not in the record; the run of the handler and the answer sent are
    those for the payload without them. *)
Theorem C10_unknown_keys_ignored {lib : Libraries} {W : Type}
    {env : Collaborators W} (payload : Payload) (st : State W)
    (booking : Booking) :
  validated_booking (without_unknown_keys payload) st = (Return booking, st) →
  validated_booking payload st = (Return booking, st)
  ∧ create_booking payload st
    = create_booking (without_unknown_keys payload) st
  ∧ post_api_book payload st
    = post_api_book (without_unknown_keys payload) st.
Proof.
  intros Hv.
  assert (validated_booking payload st = (Return booking, st)) as Hv2.
  { apply (validated_booking_ext (without_unknown_keys payload)); [|done].
    intros key Hkey.
    unfold without_unknown_keys. rewrite map_lookup_filter.
    destruct (payload !! key) as [v|]; [|done]. cbn.
    by rewrite option_guard_True. }
  assert (create_booking payload st
          = create_booking (without_unknown_keys payload) st) as Heq
    by (apply create_booking_ext; by rewrite Hv, Hv2).
  split; [done|]. split; [done|].
  unfold post_api_book. by rewrite Heq.
Qed.

Lemma C10_unknown_keys_ignored_witness :
  let payload :=
    <["coupon" := PStr "SPRING"]> (<["vip" := PBool true]> Instances.jane) in
  @validated_booking Instances.libraries _ payload Instances.state0
  = (Return Instances.jane_booking, Instances.state0)
  ∧ Instances.run payload Instances.state0
    = Instances.run (without_unknown_keys payload) Instances.state0
  ∧ Instances.post payload Instances.state0
    = Instances.post (without_unknown_keys payload) Instances.state0.
Proof.
  intros payload.
  apply (@C10_unknown_keys_ignored Instances.libraries _
           Instances.collaborators payload Instances.state0
           Instances.jane_booking).
  reflexivity.
Defined.

Example C10_keys_removed :
  without_unknown_keys
    (<["coupon" := PStr "SPRING"]> (<["vip" := PBool true]> Instances.jane))
  = Instances.jane.
Proof. reflexivity. Qed.

(** ** The calendar *)

Lemma month_day_ok_all (leapyear : bool) (n : Z) :
  0 <= n < (if leapyear then 366 else 365) →
  month_day_ok leapyear n = true.
Proof.
  intros Hn.
  assert (forallb (fun k => month_day_ok leapyear (Z.of_nat k))
                  (seq 0 (if leapyear then 366 else 365)) = true) as Hall
    by (destruct leapyear; vm_compute; reflexivity).
  rewrite forallb_forall in Hall.
  rewrite <- (Z2Nat.id n) by lia. apply Hall, in_seq.
  destruct leapyear; lia.
Qed.

Lemma is_leap_spec (y : Z) :
  _is_leap y = true ↔ y mod 4 = 0 ∧ (y mod 100 ≠ 0 ∨ y mod 400 = 0).
Proof.
  unfold _is_leap.
  rewrite andb_true_iff, orb_true_iff, negb_true_iff, !Z.eqb_eq, Z.eqb_neq.
  tauto.
Qed.

Lemma days_before_year_succ (y : Z) :
  _days_before_year (y + 1)
  = _days_before_year y + (if _is_leap y then 366 else 365).
Proof.
  unfold _days_before_year.
  destruct (_is_leap y) eqn:Hleap.
  - apply is_leap_spec in Hleap.
    Z.to_euclidean_division_equations. lia.
  - assert (¬ (y mod 4 = 0 ∧ (y mod 100 ≠ 0 ∨ y mod 400 = 0))) as Hn
      by (rewrite <- is_leap_spec; congruence).
    Z.to_euclidean_division_equations. lia.
Qed.

(** The cycle counts [_ord2ymd] computes from [n = ordinal - 1]. *)
Lemma cycles_spec (n : Z) :
  let n400 := n / _DI400Y in
  let r400 := n mod _DI400Y in
  let n100 := r400 / _DI100Y in
  let r100 := r400 mod _DI100Y in
  let n4 := r100 / _DI4Y in
  let r4 := r100 mod _DI4Y in
  let n1 := r4 / 365 in
  let r1 := r4 mod 365 in
  n = 146097 * n400 + 36524 * n100 + 1461 * n4 + 365 * n1 + r1
  ∧ 0 <= n100 <= 4 ∧ 0 <= n4 <= 24 ∧ 0 <= n1 <= 4 ∧ 0 <= r1 < 365
  ∧ (n100 = 4 → n4 = 0 ∧ n1 = 0 ∧ r1 = 0)
  ∧ (n1 = 4 → r1 = 0 ∧ n4 <= 23).
Proof.
  unfold _DI400Y, _DI100Y, _DI4Y. cbv zeta.
  Z.to_euclidean_division_equations. lia.
Qed.

Lemma days_before_year_cycles (n400 n100 n4 n1 : Z) :
  0 <= n100 <= 3 → 0 <= n4 <= 24 → 0 <= n1 <= 3 →
  _days_before_year (n400 * 400 + 1 + n100 * 100 + n4 * 4 + n1)
  = 146097 * n400 + 36524 * n100 + 1461 * n4 + 365 * n1.
Proof.
  intros. unfold _days_before_year. Z.to_euclidean_division_equations. lia.
Qed.

Lemma is_leap_cycles (n400 n100 n4 n1 : Z) :
  0 <= n100 <= 3 → 0 <= n4 <= 24 → 0 <= n1 <= 3 →
  _is_leap (n400 * 400 + 1 + n100 * 100 + n4 * 4 + n1)
  = (n1 =? 3) && (negb (n4 =? 24) || (n100 =? 3)).
Proof.
  intros. apply eq_true_iff_eq.
  rewrite is_leap_spec, andb_true_iff, orb_true_iff, negb_true_iff,
    !Z.eqb_eq, Z.eqb_neq.
  Z.to_euclidean_division_equations. lia.
Qed.

(** [_ord2ymd] inverts [_ymd2ord], and the date it returns exists. *)
Lemma ord2ymd_spec (ordinal : Z) :
  let '(y, m, d) := _ord2ymd ordinal in
  _ymd2ord y m d = ordinal
  ∧ 1 <= m <= 12 ∧ 1 <= d <= _days_in_month y m
  ∧ _days_before_year y < ordinal <= _days_before_year (y + 1).
Proof.
  unfold _ord2ymd. cbv zeta.
  pose proof (cycles_spec (ordinal - 1)) as H. cbv zeta in H.
  set (n400 := (ordinal - 1) / _DI400Y) in *.
  set (r400 := (ordinal - 1) mod _DI400Y) in *.
  set (n100 := r400 / _DI100Y) in *.
  set (r100 := r400 mod _DI100Y) in *.
  set (n4 := r100 / _DI4Y) in *.
  set (r4 := r100 mod _DI4Y) in *.
  set (n1 := r4 / 365) in *.
  set (r1 := r4 mod 365) in *.
  clearbody n400 n100 n4 n1 r1. clear r400 r100 r4.
  destruct H as (Hn & H100 & H4 & H1 & Hr & Hend100 & Hend1).
  destruct ((n1 =? 4) || (n100 =? 4)) eqn:Hend.
  - (* the last day of a leap year *)
    apply orb_true_iff in Hend. rewrite !Z.eqb_eq in Hend.
    assert (∃ c100 c4,
              0 <= c100 <= 3 ∧ 0 <= c4 <= 24
              ∧ (c4 = 24 → c100 = 3)
              ∧ n400 * 400 + 1 + n100 * 100 + n4 * 4 + n1 - 1
                = n400 * 400 + 1 + c100 * 100 + c4 * 4 + 3
              ∧ ordinal
                = 146097 * n400 + 36524 * c100 + 1461 * c4 + 365 * 3 + 366)
      as (c100 & c4 & Hc100 & Hc4 & Hc & -> & ->).
    { destruct (Z.eq_dec n100 4) as [->|].
      - exists 3, 24. lia.
      - exists n100, n4. lia. }
    set (y := n400 * 400 + 1 + c100 * 100 + c4 * 4 + 3).
    assert (_is_leap y = true) as Hleap.
    { unfold y. rewrite is_leap_cycles by lia.
      rewrite andb_true_iff, orb_true_iff, negb_true_iff, !Z.eqb_eq,
        Z.eqb_neq. lia. }
    assert (_days_before_year y
            = 146097 * n400 + 36524 * c100 + 1461 * c4 + 365 * 3) as Hy
      by (unfold y; apply days_before_year_cycles; lia).
    rewrite days_before_year_succ, Hleap, Hy.
    unfold _ymd2ord, _days_before_month, _days_in_month.
    rewrite Hleap, Hy.
    change (index _DAYS_BEFORE_MONTH 12) with 334.
    change (index _DAYS_IN_MONTH 12) with 31.
    change (2 <? 12) with true. change (12 =? 2) with false.
    cbn [andb]. lia.
  - (* any other day *)
    apply orb_false_iff in Hend. rewrite !Z.eqb_neq in Hend.
    set (y := n400 * 400 + 1 + n100 * 100 + n4 * 4 + n1).
    rewrite <- (is_leap_cycles n400 n100 n4 n1) by lia. fold y.
    assert (_days_before_year y
            = 146097 * n400 + 36524 * n100 + 1461 * n4 + 365 * n1) as Hy
      by (unfold y; apply days_before_year_cycles; lia).
    pose proof (month_day_ok_all (_is_leap y) r1) as Hok.
    unfold month_day_ok in Hok.
    destruct (_month_day (_is_leap y) r1) as [m d].
    rewrite !andb_true_iff, !Z.leb_le, Z.eqb_eq in Hok.
    destruct Hok as ((((Hm1 & Hm2) & Hd1) & Hd2) & Hsum).
    { destruct (_is_leap y); lia. }
    rewrite days_before_year_succ, Hy.
    unfold _ymd2ord, _days_before_month, _days_in_month. rewrite Hy.
    split; [lia|]. split; [lia|]. split; [lia|].
    destruct (_is_leap y); lia.
Qed.

Lemma days_before_year_mono (y y' : Z) :
  y <= y' → _days_before_year y <= _days_before_year y'.
Proof.
  intros. unfold _days_before_year. Z.to_euclidean_division_equations. lia.
Qed.

(** Within the supported range of ordinals the year is supported too. *)
Lemma ord2ymd_year (ordinal : Z) :
  0 < ordinal <= _MAXORDINAL →
  MINYEAR <= (_ord2ymd ordinal).1.1 <= MAXYEAR.
Proof.
  intros Hn. pose proof (ord2ymd_spec ordinal) as H.
  destruct (_ord2ymd ordinal) as [[y m] d]. cbn [fst].
  destruct H as (_ & _ & _ & Hy). unfold MINYEAR, MAXYEAR, _MAXORDINAL in *.
  split.
  - destruct (Z_lt_le_dec y 1) as [Hlt|]; [|done].
    pose proof (days_before_year_mono (y + 1) 1 ltac:(lia)) as Hm.
    change (_days_before_year 1) with 0 in Hm. lia.
  - destruct (Z_lt_le_dec 9999 y) as [Hlt|]; [|done].
    pose proof (days_before_year_mono 10000 y ltac:(lia)) as Hm.
    change (_days_before_year 10000) with 3652059 in Hm. lia.
Qed.

(** Evaluates the table lookups and month tests on closed months. *)
Ltac eval_months :=
  repeat match goal with
  | |- context [index ?l ?i] =>
      let v := eval vm_compute in (index l i) in change (index l i) with v
  | H : context [index ?l ?i] |- _ =>
      let v := eval vm_compute in (index l i) in
      change (index l i) with v in H
  | |- context [Z.eqb ?a ?b] =>
      let v := eval vm_compute in (Z.eqb a b) in
      progress change (Z.eqb a b) with v
  | H : context [Z.eqb ?a ?b] |- _ =>
      let v := eval vm_compute in (Z.eqb a b) in
      progress change (Z.eqb a b) with v in H
  | |- context [Z.ltb ?a ?b] =>
      let v := eval vm_compute in (Z.ltb a b) in
      progress change (Z.ltb a b) with v
  | H : context [Z.ltb ?a ?b] |- _ =>
      let v := eval vm_compute in (Z.ltb a b) in
      progress change (Z.ltb a b) with v in H
  end; cbn [andb] in *.

Lemma month_cases (m : Z) :
  1 <= m <= 12 →
  m = 1 ∨ m = 2 ∨ m = 3 ∨ m = 4 ∨ m = 5 ∨ m = 6 ∨ m = 7 ∨ m = 8 ∨ m = 9
  ∨ m = 10 ∨ m = 11 ∨ m = 12.
Proof. lia. Qed.

(** A date of the year [y] lies among the days of that year. *)
Lemma ymd2ord_bounds (y m d : Z) :
  1 <= m <= 12 → 1 <= d <= _days_in_month y m →
  _days_before_year y < _ymd2ord y m d <= _days_before_year (y + 1).
Proof.
  intros Hm Hd. rewrite days_before_year_succ.
  unfold _ymd2ord, _days_before_month, _days_in_month in *.
  destruct (_is_leap y);
    destruct (month_cases m Hm)
      as [->|[->|[->|[->|[->|[->|[->|[->|[->|[->|[->| ->]]]]]]]]]]];
    eval_months; lia.
Qed.

(** Two dates with the same ordinal are the same date. *)
Lemma ymd2ord_inj (y m d y2 m2 d2 : Z) :
  1 <= m <= 12 → 1 <= d <= _days_in_month y m →
  1 <= m2 <= 12 → 1 <= d2 <= _days_in_month y2 m2 →
  _ymd2ord y m d = _ymd2ord y2 m2 d2 →
  y = y2 ∧ m = m2 ∧ d = d2.
Proof.
  intros Hm Hd Hm2 Hd2 Heq.
  pose proof (ymd2ord_bounds y m d Hm Hd) as Hb.
  pose proof (ymd2ord_bounds y2 m2 d2 Hm2 Hd2) as Hb2.
  assert (y = y2) as <-.
  { destruct (Z.lt_trichotomy y y2) as [Hlt|[?|Hlt]]; [|done|].
    - pose proof (days_before_year_mono (y + 1) y2 ltac:(lia)). lia.
    - pose proof (days_before_year_mono (y2 + 1) y ltac:(lia)). lia. }
  split; [done|].
  unfold _ymd2ord, _days_before_month, _days_in_month in *.
  destruct (_is_leap y);
    destruct (month_cases m Hm)
      as [->|[->|[->|[->|[->|[->|[->|[->|[->|[->|[->| ->]]]]]]]]]]];
    destruct (month_cases m2 Hm2)
      as [->|[->|[->|[->|[->|[->|[->|[->|[->|[->|[->| ->]]]]]]]]]]];
    eval_months; lia.
Qed.

Lemma toordinal_bounds (dt : datetime) :
  valid dt → 0 < toordinal dt <= _MAXORDINAL.
Proof.
  intros (Hy & Hm & Hd & _). unfold toordinal, MINYEAR, MAXYEAR in *.
  pose proof (ymd2ord_bounds _ _ _ Hm Hd) as Hb.
  pose proof (days_before_year_mono 1 (year dt) ltac:(lia)) as H1.
  pose proof (days_before_year_mono (year dt + 1) 10000 ltac:(lia)) as H2.
  change (_days_before_year 1) with 0 in H1.
  change (_days_before_year 10000) with 3652059 in H2.
  unfold _MAXORDINAL. lia.
Qed.

(** The reading of a valid [datetime] determines it, up to [tzinfo]. *)
Lemma wall_clock_us_inj (a b : datetime) :
  valid a → valid b → tzinfo a = tzinfo b →
  wall_clock_us a = wall_clock_us b → a = b.
Proof.
  intros (_ & Hm & Hd & Hh & Hmi & Hs & Hu)
    (_ & Hm2 & Hd2 & Hh2 & Hmi2 & Hs2 & Hu2) Htz Heq.
  unfold wall_clock_us, timedelta_of, toordinal, US_PER_SECOND in *.
  assert (_ymd2ord (year a) (month a) (day a)
          = _ymd2ord (year b) (month b) (day b)
          ∧ hour a = hour b ∧ minute a = minute b ∧ second a = second b
          ∧ microsecond a = microsecond b) as (Ho & ? & ? & ? & ?) by lia.
  destruct (ymd2ord_inj _ _ _ _ _ _ Hm Hd Hm2 Hd2 Ho) as (? & ? & ?).
  destruct a, b; cbn in *; congruence.
Qed.

(** [datetime + timedelta] moves the reading by the timedelta, keeps
    [tzinfo], and overflows exactly when the day leaves the calendar. *)
Lemma add_spec (dt : datetime) (td : timedelta) :
  let total := wall_clock_us dt + td in
  (add dt td = None ∧ ¬ 0 < total / US_PER_DAY <= _MAXORDINAL)
  ∨ (0 < total / US_PER_DAY <= _MAXORDINAL
     ∧ ∃ end_, add dt td = Some end_
               ∧ valid end_ ∧ tzinfo end_ = tzinfo dt
               ∧ wall_clock_us end_ = total).
Proof.
  cbv zeta. unfold add.
  change (timedelta_of (toordinal dt) (hour dt) (minute dt) (second dt)
                       (microsecond dt)) with (wall_clock_us dt).
  set (total := wall_clock_us dt + td). unfold td_days.
  destruct ((0 <? total / US_PER_DAY) && (total / US_PER_DAY <=? _MAXORDINAL))
    eqn:Hrange.
  2:{ left. split; [done|]. intros [? ?].
      apply andb_false_iff in Hrange as [?%Z.ltb_ge|?%Z.leb_gt]; lia. }
  apply andb_true_iff in Hrange as [?%Z.ltb_lt ?%Z.leb_le].
  right. split; [done|].
  pose proof (ord2ymd_spec (total / US_PER_DAY)) as Hspec.
  pose proof (ord2ymd_year (total / US_PER_DAY) ltac:(lia)) as Hyear.
  destruct (_ord2ymd (total / US_PER_DAY)) as [[y m] d]. cbn [fst] in Hyear.
  destruct Hspec as (Hord & Hm & Hd & _).
  eexists. split; [reflexivity|].
  split; [|split; [reflexivity|]].
  - unfold valid. cbn [year month day hour minute second microsecond].
    split; [done|]. split; [done|]. split; [done|].
    unfold td_seconds, td_microseconds, US_PER_DAY, US_PER_SECOND.
    Z.to_euclidean_division_equations. lia.
  - unfold wall_clock_us, toordinal, timedelta_of.
    cbn [year month day hour minute second microsecond]. rewrite Hord.
    unfold td_seconds, td_microseconds, US_PER_DAY, US_PER_SECOND.
    Z.to_euclidean_division_equations. lia.
Qed.

(** ** Lines of the invite *)

Lemma lines_prefix (p s : string) :
  no_LF p = true →
  lines (p +:+ s) = (p +:+ hd EmptyString (lines s)) :: tl (lines s).
Proof.
  induction p as [|c p IH]; intros Hp.
  - rewrite !append_nil. pose proof (lines_not_nil s). by destruct (lines s).
  - cbn [no_LF] in Hp. apply andb_true_iff in Hp as [Hc Hp].
    apply negb_true_iff in Hc. rewrite !append_cons. cbn [lines].
    by rewrite Hc, (IH Hp).
Qed.

Lemma find_app_l {A} (P : A → bool) (l1 l2 : list A) :
  List.find P (l1 ++ l2)
  = match List.find P l1 with
    | Some x => Some x
    | None => List.find P l2
    end.
Proof.
  induction l1 as [|x l1 IH]; [reflexivity|]. cbn [app List.find].
  by destruct (P x).
Qed.

Lemma find_is_Some {A} (P : A → bool) (l : list A) (x : A) :
  x ∈ l → P x = true → is_Some (List.find P l).
Proof.
  intros Hin HP. destruct (List.find P l) eqn:Hfind; [by eexists|].
  apply list_elem_of_In in Hin.
  by rewrite (find_none _ _ Hfind _ Hin) in HP.
Qed.

(** Replacing a record that [key] does not start, by another such
    record, leaves the line of [key] as it is. *)
Lemma field_line_join_other (key r1 r2 : string) (pre post : list string) :
  no_LF r1 = true → no_LF r2 = true →
  starts_with key r1 = false → starts_with key r2 = false →
  field_line key (join (pre ++ r1 :: post))
  = field_line key (join (pre ++ r2 :: post)).
Proof.
  intros H1 H2 Hk1 Hk2. unfold field_line.
  rewrite !lines_join, !flat_map_app. cbn [flat_map].
  rewrite (lines_no_LF _ H1), (lines_no_LF _ H2).
  rewrite <- !app_assoc, !find_app_l. cbn [app List.find].
  by rewrite Hk1, Hk2.
Qed.

(** A record whose first line starts with [key] gives [key] a line. *)
Lemma field_line_join_found (key r : string) (records : list string) :
  r ∈ records →
  starts_with key (hd EmptyString (lines r)) = true →
  is_Some (field_line key (join records)).
Proof.
  intros Hin Hk. unfold field_line. rewrite lines_join.
  eapply find_is_Some; [|exact Hk].
  apply elem_of_app. left. apply list_elem_of_In, in_flat_map.
  exists r. split; [by apply list_elem_of_In|].
  pose proof (lines_not_nil r). destruct (lines r); [done|]. by left.
Qed.

Lemma strftime_stamp (dt : datetime) :
  strftime dt "%Y%m%dT%H%M%SZ" = strftime dt "%Y%m%dT%H%M%S" +:+ "Z".
Proof.
  rewrite strftime_compact. cbn [strftime Ascii.eqb Bool.eqb].
  by rewrite ?append_cons, ?append_nil, ?append_assoc.
Qed.

Lemma no_LF_stamp (now : datetime) :
  no_LF ("DTSTAMP:" +:+ strftime now "%Y%m%dT%H%M%SZ") = true.
Proof.
  by rewrite strftime_stamp, !no_LF_app, no_LF_strftime_compact.
Qed.

(** Two invites for the same booking and end differ in the stamp only;
    each of the six keys has a line, the same in both. *)
Lemma vevent_records_lines (booking : Booking) (end_ now1 now2 : datetime)
    (key : string) :
  key ∈ invite_keys →
  is_Some (field_line key (join (vevent_records booking end_ now1)))
  ∧ field_line key (join (vevent_records booking end_ now1))
    = field_line key (join (vevent_records booking end_ now2)).
Proof.
  intros Hkey. split.
  - unfold invite_keys in Hkey. rewrite !elem_of_cons, elem_of_nil in Hkey.
    destruct Hkey as [->|[->|[->|[->|[->|[->|[]]]]]]].
    + eapply (field_line_join_found _
                ("UID:" +:+ "booking-"
                 +:+ strftime (preferred_datetime booking) "%Y%m%dT%H%M%S"
                 +:+ "-" +:+ email booking)).
      * by apply (list_elem_of_lookup_2 _ 4%nat).
      * by rewrite lines_prefix.
    + eapply (field_line_join_found _
                ("DTSTART:"
                 +:+ strftime (preferred_datetime booking) "%Y%m%dT%H%M%S")).
      * by apply (list_elem_of_lookup_2 _ 6%nat).
      * by rewrite lines_prefix.
    + eapply (field_line_join_found _
                ("DTEND:" +:+ strftime end_ "%Y%m%dT%H%M%S")).
      * by apply (list_elem_of_lookup_2 _ 7%nat).
      * by rewrite lines_prefix.
    + eapply (field_line_join_found _
                ("SUMMARY:" +:+ "Appointment: "
                 +:+ service_text (service booking)
                 +:+ " - Alankritha Naturals")).
      * by apply (list_elem_of_lookup_2 _ 8%nat).
      * by rewrite lines_prefix.
    + eapply (field_line_join_found _
                ("DESCRIPTION:" +:+ "Name: " +:+ name booking
                 +:+ "\nPhone: " +:+ phone booking +:+ "\nNotes: "
                 +:+ default EmptyString (notes booking))).
      * by apply (list_elem_of_lookup_2 _ 9%nat).
      * by rewrite lines_prefix.
    + eapply (field_line_join_found _ "LOCATION:Alankritha Naturals, Hyderabad").
      * by apply (list_elem_of_lookup_2 _ 10%nat).
      * reflexivity.
  - change (vevent_records booking end_ now1)
      with (take 5 (vevent_records booking end_ now1)
            ++ ("DTSTAMP:" +:+ strftime now1 "%Y%m%dT%H%M%SZ")
            :: drop 6 (vevent_records booking end_ now1)).
    change (vevent_records booking end_ now2)
      with (take 5 (vevent_records booking end_ now1)
            ++ ("DTSTAMP:" +:+ strftime now2 "%Y%m%dT%H%M%SZ")
            :: drop 6 (vevent_records booking end_ now1)).
    apply field_line_join_other; try apply no_LF_stamp;
      unfold invite_keys in Hkey;
      rewrite !elem_of_cons, elem_of_nil in Hkey;
      by destruct Hkey as [->|[->|[->|[->|[->|[->|[]]]]]]].
Qed.

(** The [UID] line is read off the start and the address. *)
Lemma vevent_records_uid (booking : Booking) (end_ now : datetime) :
  field_line "UID:" (join (vevent_records booking end_ now))
  = head (lines ("UID:booking-"
                 +:+ strftime (preferred_datetime booking) "%Y%m%dT%H%M%S"
                 +:+ "-" +:+ email booking)).
Proof.
  unfold field_line. rewrite lines_join.
  change (vevent_records booking end_ now)
    with (take 4 (vevent_records booking end_ now)
          ++ ("UID:" +:+ "booking-"
              +:+ strftime (preferred_datetime booking) "%Y%m%dT%H%M%S"
              +:+ "-" +:+ email booking)
          :: drop 5 (vevent_records booking end_ now)).
  rewrite flat_map_app. cbn [flat_map]. rewrite <- !app_assoc, find_app_l.
  replace (List.find (starts_with "UID:")
             (flat_map lines (take 4 (vevent_records booking end_ now))))
    with (@None string) by reflexivity.
  change ("UID:booking-"
          +:+ strftime (preferred_datetime booking) "%Y%m%dT%H%M%S"
          +:+ "-" +:+ email booking)
    with ("UID:" +:+ "booking-"
          +:+ strftime (preferred_datetime booking) "%Y%m%dT%H%M%S"
          +:+ "-" +:+ email booking).
  rewrite lines_prefix by reflexivity. reflexivity.
Qed.

(** ** The calendar invite *)

Lemma validb_valid (dt : datetime) : validb dt = true → valid dt.
Proof.
  unfold validb, valid. rewrite !andb_true_iff, !Z.leb_le, !Z.ltb_lt. tauto.
Qed.

Lemma Return_inj {A} (a b : A) : Return a = Return b → a = b.
Proof. by intros [= ->]. Qed.

(** With an address free of line feeds, the lines of DTSTART and DTEND
    are the ones [build_ics] writes for the start and the end. *)
Lemma vevent_records_start_end (booking : Booking) (end_ now : datetime) :
  no_LF (email booking) = true →
  field_line "DTSTART:" (join (vevent_records booking end_ now))
  = Some ("DTSTART:"
          +:+ strftime (preferred_datetime booking) "%Y%m%dT%H%M%S")
  ∧ field_line "DTEND:" (join (vevent_records booking end_ now))
    = Some ("DTEND:" +:+ strftime end_ "%Y%m%dT%H%M%S").
Proof.
  intros Hmail. unfold field_line. rewrite lines_join.
  change (vevent_records booking end_ now)
    with (take 8 (vevent_records booking end_ now)
          ++ drop 8 (vevent_records booking end_ now)).
  rewrite flat_map_app.
  assert (flat_map lines (take 8 (vevent_records booking end_ now))
          = take 8 (vevent_records booking end_ now)) as ->.
  { cbn [take vevent_records flat_map].
    rewrite (lines_no_LF ("UID:booking-" +:+ _)), (lines_no_LF ("DTSTAMP:" +:+ _)),
      (lines_no_LF ("DTSTART:" +:+ _)), (lines_no_LF ("DTEND:" +:+ _));
      [reflexivity|..];
      rewrite ?strftime_stamp, ?no_LF_app, ?no_LF_strftime_compact, ?Hmail;
      reflexivity. }
  rewrite <- !app_assoc, !find_app_l. split; reflexivity.
Qed.

(** C5. For a [Booking] whose [preferred_datetime] is a valid
    [datetime]: if it lies before 23:00 on 9999-12-31, [build_ics]
    returns an invite that has the line DTSTART of the start and the line
    DTEND of the one valid [datetime] exactly 3600 seconds later (the same
    [tzinfo]); with an address free of line feeds these are the first
    lines of those keys.  From 23:00 on 9999-12-31 on, the end is not
    representable and [build_ics] raises [OverflowError] instead. *)
Theorem C5_one_hour_event {lib : Libraries} {W : Type} {env : Collaborators W}
    (booking : Booking) (st : State W) :
  valid (preferred_datetime booking) →
  let start := preferred_datetime booking in
  let last := mk_datetime 9999 12 31 23 0 0 0 None in
  (wall_clock_us last <= wall_clock_us start
   ∧ build_ics booking st
     = (Raise (OverflowError "date value out of range"), st))
  ∨ (wall_clock_us start < wall_clock_us last
     ∧ ∃ (end_ : datetime) (ics : string) (st' : State W),
         build_ics booking st = (Return ics, st')
         ∧ valid end_ ∧ tzinfo end_ = tzinfo start
         ∧ wall_clock_us end_ = wall_clock_us start + 3600 * US_PER_SECOND
         ∧ (∀ e, valid e → tzinfo e = tzinfo start →
                 wall_clock_us e = wall_clock_us start + 3600 * US_PER_SECOND →
                 e = end_)
         ∧ "DTSTART:" +:+ strftime start "%Y%m%dT%H%M%S" ∈ lines ics
         ∧ "DTEND:" +:+ strftime end_ "%Y%m%dT%H%M%S" ∈ lines ics
         ∧ (no_LF (email booking) = true →
            field_line "DTSTART:" ics
            = Some ("DTSTART:" +:+ strftime start "%Y%m%dT%H%M%S")
            ∧ field_line "DTEND:" ics
              = Some ("DTEND:" +:+ strftime end_ "%Y%m%dT%H%M%S"))).
Proof.
  intros Hvalid. cbv zeta. rewrite build_ics_run.
  set (start := preferred_datetime booking) in *.
  pose proof (toordinal_bounds _ Hvalid) as Hord.
  assert (toordinal start * US_PER_DAY <= wall_clock_us start) as Hlow.
  { destruct Hvalid as (_ & _ & _ & Hh & Hmi & Hs & Hu).
    unfold wall_clock_us, timedelta_of, US_PER_DAY, US_PER_SECOND in *. lia. }
  change (wall_clock_us (mk_datetime 9999 12 31 23 0 0 0 None))
    with 315537980400000000.
  change (timedelta_of 0 1 0 0 0) with (3600 * US_PER_SECOND).
  destruct (add_spec start (3600 * US_PER_SECOND))
    as [[-> Hout]|(Hin & end_ & -> & Hv & Htz & Hwc)].
  - left. split; [|done].
    unfold US_PER_DAY, US_PER_SECOND, _MAXORDINAL in *.
    Z.to_euclidean_division_equations. lia.
  - right. split.
    { unfold US_PER_DAY, US_PER_SECOND, _MAXORDINAL in *.
      Z.to_euclidean_division_equations. lia. }
    eexists end_, _, _. split; [reflexivity|].
    split; [done|]. split; [done|]. split; [done|]. split.
    { intros e He Hetz Hewc. apply wall_clock_us_inj; [done..|congruence|lia]. }
    split; [|split].
    + apply record_in_lines.
      * by apply (list_elem_of_lookup_2 _ 6%nat).
      * by rewrite no_LF_app, no_LF_strftime_compact.
    + apply record_in_lines.
      * by apply (list_elem_of_lookup_2 _ 7%nat).
      * by rewrite no_LF_app, no_LF_strftime_compact.
    + apply vevent_records_start_end.
Qed.

Lemma C5_one_hour_event_witness :
  let start := mk_datetime 2025 6 1 10 0 0 0 None in
  let last := mk_datetime 9999 12 31 23 0 0 0 None in
  (wall_clock_us last <= wall_clock_us start
   ∧ @build_ics _ Instances.collaborators Instances.jane_booking
       Instances.state0
     = (Raise (OverflowError "date value out of range"), Instances.state0))
  ∨ (wall_clock_us start < wall_clock_us last
     ∧ ∃ end_ ics st',
         @build_ics _ Instances.collaborators Instances.jane_booking
           Instances.state0 = (Return ics, st')
         ∧ valid end_ ∧ tzinfo end_ = tzinfo start
         ∧ wall_clock_us end_ = wall_clock_us start + 3600 * US_PER_SECOND
         ∧ (∀ e, valid e → tzinfo e = tzinfo start →
                 wall_clock_us e = wall_clock_us start + 3600 * US_PER_SECOND →
                 e = end_)
         ∧ "DTSTART:" +:+ strftime start "%Y%m%dT%H%M%S" ∈ lines ics
         ∧ "DTEND:" +:+ strftime end_ "%Y%m%dT%H%M%S" ∈ lines ics
         ∧ (no_LF (email Instances.jane_booking) = true →
            field_line "DTSTART:" ics
            = Some ("DTSTART:" +:+ strftime start "%Y%m%dT%H%M%S")
            ∧ field_line "DTEND:" ics
              = Some ("DTEND:" +:+ strftime end_ "%Y%m%dT%H%M%S"))).
Proof.
  apply (@C5_one_hour_event Instances.libraries _ Instances.collaborators
           Instances.jane_booking Instances.state0).
  apply validb_valid. reflexivity.
Defined.

Example C5_last_hour_overflows :
  @build_ics _ Instances.collaborators
    (mk_Booking "Jane Doe" "1234567890" "jane@example.com" Facials
                (mk_datetime 9999 12 31 23 30 0 0 None) None pending)
    Instances.state0
  = (Raise (OverflowError "date value out of range"), Instances.state0).
Proof. reflexivity. Qed.

(** At the endpoint the same start is stored first: the insert is made,
    then [build_ics] raises. *)
Example last_hour_at_the_endpoint :
  let st :=
    (Instances.run
       (<["preferred_datetime" := PStr "9999-12-31T23:30:00"]> Instances.jane)
       Instances.state0) in
  st.1 = Raise (OverflowError "date value out of range")
  ∧ length (Instances.documents (world st.2)) = 1%nat
  ∧ length (trace st.2) = 1%nat.
Proof. cbv zeta. split; [reflexivity|]. split; reflexivity. Qed.

(** C6. Two runs of [build_ics] on the same [Booking], in any two
    states, both raise [OverflowError] or both return an invite; the two
    invites have a line for each of UID, DTSTART, DTEND, SUMMARY,
    DESCRIPTION and LOCATION, the same line in both.  The UID line is
    read off the start timestamp and the address alone, so any [Booking]
    with the same two has the same UID line; no store identifier enters
    [build_ics]. *)
Theorem C6_invite_deterministic {lib : Libraries} {W : Type}
    {env : Collaborators W} (booking : Booking) (st1 st2 : State W) :
  ((build_ics booking st1).1 = Raise (OverflowError "date value out of range")
   ∧ (build_ics booking st2).1
     = Raise (OverflowError "date value out of range"))
  ∨ ∃ ics1 ics2 : string,
      (build_ics booking st1).1 = Return ics1
      ∧ (build_ics booking st2).1 = Return ics2
      ∧ (∀ key, key ∈ invite_keys →
           is_Some (field_line key ics1)
           ∧ field_line key ics1 = field_line key ics2)
      ∧ field_line "UID:" ics1
        = head (lines ("UID:booking-"
                       +:+ strftime (preferred_datetime booking)
                                    "%Y%m%dT%H%M%S"
                       +:+ "-" +:+ email booking))
      ∧ (∀ (booking2 : Booking) (st : State W) (ics : string),
           preferred_datetime booking2 = preferred_datetime booking →
           email booking2 = email booking →
           (build_ics booking2 st).1 = Return ics →
           field_line "UID:" ics = field_line "UID:" ics1).
Proof.
  rewrite !build_ics_run.
  destruct (add (preferred_datetime booking) _) as [end_|] eqn:Hadd;
    [right|by left].
  eexists _, _. split; [reflexivity|]. split; [reflexivity|].
  split; [|split].
  - intros key Hkey. by apply vevent_records_lines.
  - apply vevent_records_uid.
  - intros booking2 st ics Hpd Hmail. rewrite build_ics_run, Hpd, Hadd.
    intros Hics. apply Return_inj in Hics as <-.
    by rewrite !vevent_records_uid, Hpd, Hmail.
Qed.

Example C6_two_clocks :
  let later :=
    mk_State (Instances.mk_World [] true (mk_datetime 2026 1 1 0 0 0 0 None))
             [] in
  match (@build_ics _ Instances.collaborators Instances.jane_booking
           Instances.state0).1,
        (@build_ics _ Instances.collaborators Instances.jane_booking later).1
  with
  | Return ics1, Return ics2 =>
      ics1 ≠ ics2
      ∧ field_line "UID:" ics1
        = Some "UID:booking-20250601T100000-jane@example.com"%string
      ∧ field_line "UID:" ics2 = field_line "UID:" ics1
      ∧ field_line "DTSTAMP:" ics1 = Some "DTSTAMP:20250520T081530Z"%string
      ∧ field_line "DTSTAMP:" ics2 = Some "DTSTAMP:20260101T000000Z"%string
  | _, _ => False
  end.
Proof. cbv zeta. vm_compute. repeat split; done. Qed.

(** ** The diagnostics route *)

#[local] Arguments str_take : simpl never.

(** C9. Whatever the probe finds ([database] failing to import, [db]
    being [None], [list_collection_names] raising or answering),
    [test_database] returns its dictionary and raises nothing; the
    dictionary has its six keys, [backend] reads "Running", and each
    failure of the probe is told in the text under [database], with the
    message of the exception cut to 50 characters. *)
Theorem C9_diagnostics_never_fail (p : Probe) :
  ∃ response : Payload,
    test_database p = Return response
    ∧ response !! "backend" = Some (PStr "✅ Running")
    ∧ (∀ key, key ∈ ["backend"; "database"; "database_url"; "database_name";
                     "connection_status"; "collections"]%string →
              is_Some (response !! key))
    ∧ response !! "database_url"
      = Some (PStr (if getenv_truthy p "DATABASE_URL"
                    then "✅ Set" else "❌ Not Set"))
    ∧ response !! "database_name"
      = Some (PStr (if getenv_truthy p "DATABASE_NAME"
                    then "✅ Set" else "❌ Not Set"))
    ∧ (∀ msg, import_db p = RaisesImportError msg →
         response !! "database"
         = Some (PStr "❌ Database module not found (run enable-database first)")
         ∧ response !! "connection_status" = Some (PStr "Not Connected"))
    ∧ (∀ msg, import_db p = Raises msg →
         response !! "database"
         = Some (PStr ("❌ Error: " +:+ str_take 50 msg))
         ∧ response !! "connection_status" = Some (PStr "Not Connected"))
    ∧ (import_db p = Answers None →
         response !! "database"
         = Some (PStr "⚠️  Available but not initialized")
         ∧ response !! "connection_status" = Some (PStr "Not Connected"))
    ∧ (∀ db msg, import_db p = Answers (Some db) →
         (list_collection_names db = Raises msg
          ∨ list_collection_names db = RaisesImportError msg) →
         response !! "database"
         = Some (PStr ("⚠️  Connected but Error: " +:+ str_take 50 msg))
         ∧ response !! "connection_status" = Some (PStr "Connected")
         ∧ response !! "collections" = Some (PList []))
    ∧ (∀ db names, import_db p = Answers (Some db) →
         list_collection_names db = Answers names →
         response !! "database" = Some (PStr "✅ Connected & Working")
         ∧ response !! "connection_status" = Some (PStr "Connected")
         ∧ response !! "collections"
           = Some (PList (PStr <$> take 10 names))).
Proof.
  unfold test_database, test_database_body, probe_database, set_item,
    of_probed.
  unfold_M.
  destruct (import_db p) as [msg|msg|[db|]] eqn:Himp;
    [| |destruct (list_collection_names db) as [msg|msg|names] eqn:Hlist|];
    cbn [fst snd str]; eexists; (split; [reflexivity|]);
    unfold initial_response;
    repeat split; intros;
    repeat match goal with
    | H : _ ∈ _ :: _ |- _ => apply elem_of_cons in H as [->|H]
    | H : _ ∈ [] |- _ => by apply elem_of_nil in H
    | H : _ ∨ _ |- _ => destruct H
    end;
    try congruence; simplify_eq; simplify_map_eq; first [done | congruence].
Qed.

Example C9_unreachable_store :
  ∃ response,
    test_database
      (mk_Probe (Answers (Some (mk_DbHandle (Some "salon"%string)
                   (Raises "connection refused by 10.0.0.7:27017 after 30000 ms of waiting"))))
                ∅)
    = Return response
    ∧ response !! "database"
      = Some (PStr "⚠️  Connected but Error: connection refused by 10.0.0.7:27017 after 30000 m")
    ∧ response !! "database_url" = Some (PStr "❌ Not Set").
Proof. eexists. split; [reflexivity|]. split; reflexivity. Qed.

(** * Further properties of the schema and the handlers *)

(** ** What [Booking] accepts *)

(** X1. [Booking] builds a record from a mapping exactly when no field
    of the mapping violates its constraint: nothing valid is refused and
    nothing invalid is let through. *)
Theorem X1_Booking_accepts_iff {lib : Libraries} (data : Payload) :
  (∃ booking, Booking_init data = Return booking)
  ↔ ∀ key, ¬ violates data key.
Proof.
  split.
  - intros [b Hb] key Hkey. apply all_errors_locs in Hkey.
    rewrite (Booking_init_ok _ _ Hb) in Hkey. by apply elem_of_nil in Hkey.
  - intros Hok. destruct (Booking_init data) as [b|e] eqn:Hb; [by exists b|].
    exfalso. apply Booking_init_fails in Hb.
    destruct (all_errors data) as [|err errs] eqn:Hall; [done|].
    apply (Hok (loc err)), all_errors_locs. rewrite Hall. set_solver.
Qed.

(** The record [Booking] builds, field by field. *)
Lemma Booking_init_fields {lib : Libraries} (data : Payload)
    (booking : Booking) :
  Booking_init data = Return booking →
  data !! "name" = Some (PStr (name booking))
  ∧ data !! "phone" = Some (PStr (phone booking))
  ∧ (∃ s, data !! "email" = Some (PStr s)
          ∧ validate_email s = Some (email booking))
  ∧ data !! "service" = Some (PStr (service_text (service booking)))
  ∧ (data !! "preferred_datetime"
       = Some (PDatetime (preferred_datetime booking))
     ∨ ∃ v, data !! "preferred_datetime" = Some v
            ∧ (∀ dt, v ≠ PDatetime dt)
            ∧ lax_datetime v = Some (preferred_datetime booking))
  ∧ match notes booking with
    | None => data !! "notes" = None ∨ data !! "notes" = Some PNone
    | Some s => data !! "notes" = Some (PStr s)
    end.
Proof.
  unfold Booking_init.
  destruct (check_name data) as [|n] eqn:Hn; [by destruct (check_phone data)|].
  destruct (check_phone data) as [|p] eqn:Hp; [done|].
  destruct (check_email_field data) as [|e] eqn:He; [done|].
  destruct (check_service data) as [|s] eqn:Hs; [done|].
  destruct (check_preferred_datetime data) as [|d] eqn:Hd; [done|].
  destruct (check_notes data) as [|nt] eqn:Hnt; [done|].
  destruct (check_status data) as [|st] eqn:Hst; [done|].
  intros [= <-]. cbn [name phone email service preferred_datetime notes].
  unfold check_name, check_phone, check_email_field, check_service,
    check_preferred_datetime, check_notes, field in *.
  repeat split.
  - destruct (data !! "name") as [[]|]; try discriminate.
    cbn [check_str] in Hn. repeat case_match; congruence.
  - destruct (data !! "phone") as [[]|]; try discriminate.
    cbn [check_str] in Hp. repeat case_match; congruence.
  - destruct (data !! "email") as [[]|]; try discriminate.
    cbn [check_email] in He. destruct (validate_email s0) eqn:Hv;
      [|discriminate]. injection He as <-. by eexists.
  - destruct (data !! "service") as [v|]; [|discriminate].
    by apply check_literal_ok in Hs as [-> _].
  - destruct (data !! "preferred_datetime") as [v|]; [|discriminate].
    destruct v; cbn [check_datetime] in Hd;
      try (right; eexists; split; [done|]; split; [done|];
           by destruct (lax_datetime _); simplify_eq).
    left. congruence.
  - destruct (data !! "notes") as [v|]; [|injection Hnt as <-; by left].
    destruct v; cbn [check_optional check_str] in Hnt;
      try discriminate; [injection Hnt as <-; by right|].
    repeat case_match; simplify_eq. done.
Qed.

(** Sizes of the texts of a record [Booking] built. *)
Lemma Booking_init_bounds {lib : Libraries} (data : Payload)
    (booking : Booking) :
  Booking_init data = Return booking →
  (2 <= String.length (name booking) <= 100)%nat
  ∧ (7 <= String.length (phone booking) <= 20)%nat
  ∧ (String.length (default EmptyString (notes booking)) <= 1000)%nat.
Proof.
  intros Hb.
  assert (∀ key, ¬ violates data key) as Hok.
  { intros key Hkey. apply all_errors_locs in Hkey.
    rewrite (Booking_init_ok _ _ Hb) in Hkey. by apply elem_of_nil in Hkey. }
  destruct (Booking_init_fields _ _ Hb) as (Hn & Hp & _ & _ & _ & Hnt).
  assert (¬ violates data "name") as Hvn by apply Hok.
  assert (¬ violates data "phone") as Hvp by apply Hok.
  assert (¬ violates data "notes") as Hvt by apply Hok.
  unfold violates in *. split; [|split].
  - destruct (decide (2 <= String.length (name booking) <= 100)%nat);
      [done|]. exfalso. apply Hvn. left. split; [done|].
    intros (s & Hs & ?). congruence.
  - destruct (decide (7 <= String.length (phone booking) <= 20)%nat);
      [done|]. exfalso. apply Hvp. right. left. split; [done|].
    intros (s & Hs & ?). congruence.
  - destruct (notes booking) as [s|]; cbn [default]; [|cbn; lia].
    destruct (decide (String.length s <= 1000)%nat); [done|].
    exfalso. apply Hvt. do 5 right. left. split; [done|].
    intros [|[|(s' & Hs & ?)]]; congruence.
Qed.

(** ** The error list *)

Lemma field_errors_sublist {A} (data : Payload) (key : string)
    (c : Checked A) :
  sublist (loc <$> field_errors data key c) [key].
Proof.
  destruct c; cbn [field_errors fmap list_fmap loc].
  - done.
  - apply sublist_nil_l.
Qed.

(** X2. The errors of a mapping come in the order the fields are
    declared, at most one for each field. *)
Theorem X2_errors_in_field_order {lib : Libraries} (data : Payload) :
  sublist (loc <$> all_errors data) fields
  ∧ NoDup (loc <$> all_errors data).
Proof.
  assert (sublist (loc <$> all_errors data) fields) as Hsub.
  { unfold all_errors. rewrite !fmap_app.
    change fields
      with (["name"%string] ++ ["phone"%string] ++ ["email"%string]
            ++ ["service"%string] ++ ["preferred_datetime"%string]
            ++ ["notes"%string] ++ ["status"%string]).
    repeat apply sublist_app; apply field_errors_sublist. }
  split; [done|]. eapply sublist_NoDup; [|exact Hsub].
  unfold fields. repeat (apply NoDup_cons; split; [set_solver|]).
  apply NoDup_nil_2.
Qed.

(** A field declared without a default that the mapping lacks is
    reported as missing, with the whole mapping as input. *)
Lemma missing_reported {lib : Libraries} (data : Payload) (key : string) :
  key ∈ required →
  data !! key = None →
  mk_error key missing (WholeInput data) ∈ all_errors data.
Proof.
  intros Hkey Hnone.
  unfold required in Hkey. rewrite !elem_of_cons, elem_of_nil in Hkey.
  unfold all_errors, check_name, check_phone, check_email_field,
    check_service, check_preferred_datetime, field.
  destruct Hkey as [->|[->|[->|[->|[->|[]]]]]]; rewrite Hnone;
    cbn [field_errors]; unfold error_input; rewrite Hnone; set_solver.
Qed.

(** X3. For every mapping: each field declared without a default that
    the mapping lacks is reported as missing, with the whole mapping as
    the input echoed; and a mapping that lacks [notes], or [status],
    gets no error for it. *)
Theorem X3_missing_fields {lib : Libraries} (data : Payload) :
  (∀ key, key ∈ required → data !! key = None →
          mk_error key missing (WholeInput data) ∈ all_errors data)
  ∧ (data !! "notes" = None → "notes"%string ∉ loc <$> all_errors data)
  ∧ (data !! "status" = None → "status"%string ∉ loc <$> all_errors data).
Proof.
  split; [|split].
  - intros key. apply missing_reported.
  - intros Hn Hin. apply all_errors_locs in Hin. unfold violates in Hin.
    repeat (destruct Hin as [[? Hin]|Hin]; [discriminate|]).
    destruct Hin as [[_ Hin]|[? _]]; [|discriminate]. apply Hin. by left.
  - intros Hn Hin. apply all_errors_locs in Hin. unfold violates in Hin.
    repeat (destruct Hin as [[? Hin]|Hin]; [discriminate|]).
    destruct Hin as [_ Hin]. apply Hin. by left.
Qed.

Lemma X3_missing_fields_witness :
  let data := delete "phone" Instances.jane in
  mk_error "phone" missing (WholeInput data)
    ∈ @all_errors Instances.libraries data
  ∧ ("notes"%string ∉ loc <$> @all_errors Instances.libraries data)
  ∧ ("status"%string ∉ loc <$> @all_errors Instances.libraries data).
Proof.
  intros data.
  destruct (@X3_missing_fields Instances.libraries data)
    as (Hmissing & Hnotes & Hstatus).
  split; [|split].
  - apply Hmissing; [by apply (list_elem_of_lookup_2 _ 1%nat) | reflexivity].
  - apply Hnotes. reflexivity.
  - apply Hstatus. reflexivity.
Defined.

Example empty_payload_errors :
  @all_errors Instances.libraries ∅
  = [mk_error "name" missing (WholeInput ∅);
     mk_error "phone" missing (WholeInput ∅);
     mk_error "email" missing (WholeInput ∅);
     mk_error "service" missing (WholeInput ∅);
     mk_error "preferred_datetime" missing (WholeInput ∅)].
Proof. reflexivity. Qed.

(** The kind of error of a text field with bounds. *)
Lemma check_str_kind (lo hi : nat) (v : PyVal) :
  (lo <= hi)%nat →
  check_str (Some lo) (Some hi) v
  = match v with
    | PStr s =>
        if decide (String.length s < lo)%nat then inl string_too_short
        else if decide (hi < String.length s)%nat then inl string_too_long
        else inr s
    | _ => inl string_type
    end.
Proof.
  intros Hle. destruct v; cbn [check_str]; try reflexivity.
  destruct (Nat.ltb_spec (String.length s) lo); case_decide; try lia;
    [done|].
  destruct (Nat.ltb_spec hi (String.length s)); case_decide; try lia; done.
Qed.

(** X4. The bounds of [name] are 2 and 100 characters, both included: a
    shorter text is reported as too short, a longer one as too long, a
    value that is no text as a type error, and a text within the bounds
    raises no error for [name]. *)
Theorem X4_name_bounds {lib : Libraries} (data : Payload) (v : PyVal) :
  data !! "name" = Some v →
  match v with
  | PStr s =>
      ((String.length s < 2)%nat
       ∧ mk_error "name" string_too_short (FieldValue v) ∈ all_errors data)
      ∨ ((100 < String.length s)%nat
         ∧ mk_error "name" string_too_long (FieldValue v) ∈ all_errors data)
      ∨ ((2 <= String.length s <= 100)%nat
         ∧ "name"%string ∉ loc <$> all_errors data)
  | _ => mk_error "name" string_type (FieldValue v) ∈ all_errors data
  end.
Proof.
  intros Hv.
  assert (check_name data = check_str (Some 2%nat) (Some 100%nat) v) as Hc
    by (unfold check_name, field; by rewrite Hv).
  assert (∀ e, check_name data = inl e →
            mk_error "name" e (FieldValue v) ∈ all_errors data) as Hin.
  { intros e He. unfold all_errors. rewrite He. cbn [field_errors].
    unfold error_input. rewrite Hv. set_solver. }
  rewrite check_str_kind in Hc by lia.
  destruct v; try (by apply Hin).
  repeat case_decide.
  - left. split; [done|]. by apply Hin.
  - right. left. split; [done|]. by apply Hin.
  - right. right. split; [lia|]. intros Hloc.
    apply all_errors_locs in Hloc. unfold violates in Hloc.
    destruct Hloc as [[_ Hn]|Hloc];
      [|by repeat (destruct Hloc as [[? Hloc]|Hloc]; [discriminate|]);
           destruct Hloc].
    apply Hn. exists s. split; [done|lia].
Qed.

Lemma X4_name_bounds_witness :
  let data := <["name" := PStr "Al"]> Instances.jane in
  ((String.length "Al" < 2)%nat
   ∧ mk_error "name" string_too_short (FieldValue (PStr "Al"))
       ∈ @all_errors Instances.libraries data)
  ∨ ((100 < String.length "Al")%nat
     ∧ mk_error "name" string_too_long (FieldValue (PStr "Al"))
         ∈ @all_errors Instances.libraries data)
  ∨ ((2 <= String.length "Al" <= 100)%nat
     ∧ "name"%string ∉ loc <$> @all_errors Instances.libraries data).
Proof.
  intros data.
  apply (@X4_name_bounds Instances.libraries data (PStr "Al")).
  reflexivity.
Defined.

(** ** The answers of the booking endpoint *)


Section Answers.
Context {lib : Libraries} {W : Type} {env : Collaborators W}.
Implicit Types (payload : Payload) (st : State W) (booking : Booking).

(** A [Booking] comes out of lines 110-120 only through the date step and
    the constructor. *)
Lemma validated_booking_inv payload st booking :
  validated_booking payload st = (Return booking, st) →
  ∃ payload', coerce_preferred_datetime payload st = (Return payload', st)
              ∧ Booking_init payload' = Return booking.
Proof.
  intros Hv.
  destruct (coerce_preferred_datetime payload st) as [[payload'|e] st'] eqn:Hc;
    pose proof (coerce_preferred_datetime_state _ _ _ _ Hc) as ->.
  - exists payload'. split; [done|].
    rewrite (validated_booking_coerced _ _ _ _ Hc) in Hv.
    destruct (Booking_init payload'); congruence.
  - unfold validated_booking in Hv. unfold_M. rewrite Hc in Hv.
    rewrite coerce_preferred_datetime_run in Hc.
    destruct (payload !! "preferred_datetime") as [[]|]; try discriminate.
    destruct (fromisoformat s); [discriminate|].
    injection Hc as <-. discriminate.
Qed.

(** The only failure of the date step. *)
Lemma coerce_preferred_datetime_raises payload st e st' :
  coerce_preferred_datetime payload st = (Raise e, st') →
  e = HTTPException 400
        (DetailStr "Invalid preferred_datetime format. Use ISO 8601.")
  ∧ ∃ s, payload !! "preferred_datetime" = Some (PStr s)
         ∧ fromisoformat s = None.
Proof.
  rewrite coerce_preferred_datetime_run.
  destruct (payload !! "preferred_datetime") as [[]|]; try discriminate.
  destruct (fromisoformat s) eqn:Hs; [discriminate|].
  intros [= <- _]. split; [done|]. by exists s.
Qed.

(** The run of the handler, by what validation gives. *)
Lemma create_booking_cases payload st :
  (∃ e, validated_booking payload st = (Raise e, st)
        ∧ create_booking payload st = (Raise e, st))
  ∨ (∃ booking, validated_booking payload st = (Return booking, st)).
Proof.
  destruct (validated_booking payload st) as [[b|e] st'] eqn:Hv;
    pose proof (validated_booking_state _ _ _ _ Hv) as ->.
  - right. by exists b.
  - left. exists e. split; [done|]. by apply create_booking_rejected.
Qed.

Lemma validated_booking_raises payload st e :
  validated_booking payload st = (Raise e, st) →
  (e = HTTPException 400
         (DetailStr "Invalid preferred_datetime format. Use ISO 8601.")
   ∧ ∃ s, payload !! "preferred_datetime" = Some (PStr s)
          ∧ fromisoformat s = None)
  ∨ (∃ payload',
       coerce_preferred_datetime payload st = (Return payload', st)
       ∧ e = HTTPException 422 (DetailErrors (all_errors payload'))
       ∧ ∃ key, violates payload' key).
Proof.
  intros Hv.
  destruct (coerce_preferred_datetime payload st) as [[payload'|e'] st'] eqn:Hc;
    pose proof (coerce_preferred_datetime_state _ _ _ _ Hc) as ->.
  - right. exists payload'. split; [done|].
    rewrite (validated_booking_coerced _ _ _ _ Hc) in Hv.
    destruct (Booking_init payload') as [|e'] eqn:Hb; [discriminate|].
    injection Hv as <-. split; [done|].
    apply Booking_init_fails in Hb.
    destruct (all_errors payload') as [|err errs] eqn:Hall; [done|].
    exists (loc err). apply all_errors_locs. rewrite Hall. set_solver.
  - left. destruct (coerce_preferred_datetime_raises _ _ _ _ Hc) as [-> Hs].
    rewrite (validated_booking_rejected_text _ _ _ Hc) in Hv.
    by injection Hv as <-.
Qed.

(** X5. The answer is the 400 date error exactly when
    [preferred_datetime] is a text that [datetime.fromisoformat] does not
    parse; its detail is then the fixed message.  A payload without the
    key, or with a value that is no text, never gets this answer. *)
Theorem X5_bad_request_iff payload st (d : Detail) :
  (create_booking payload st).1 = Raise (HTTPException 400 d)
  ↔ d = DetailStr "Invalid preferred_datetime format. Use ISO 8601."
    ∧ ∃ s, payload !! "preferred_datetime" = Some (PStr s)
           ∧ fromisoformat s = None.
Proof.
  split.
  - intros Hd. apply create_booking_outcome in Hd as [Hv|]; [|done].
    apply validated_booking_raises in Hv
      as [[[= ->] Hs]|(? & _ & [=] & _)].
    by split.
  - intros [-> (s & Hpd & Hs)].
    assert (coerce_preferred_datetime payload st
            = (Raise (HTTPException 400
                 (DetailStr "Invalid preferred_datetime format. Use ISO 8601.")),
               st)) as Hc
      by (by rewrite coerce_preferred_datetime_run, Hpd, Hs).
    by rewrite (create_booking_rejected _ _ _
                  (validated_booking_rejected_text _ _ _ Hc)).
Qed.

(** X7. What a request does to the world, in all cases: a request
    answered 400 or 422 leaves the state as it was; any other request
    makes one insert, of the validated record into "booking", and reads
    the clock once after it if and only if the handler returns. *)
Theorem X7_request_effects payload st :
  let r := create_booking payload st in
  (r.2 = st
   ∧ ∃ d, r.1 = Raise (HTTPException 400 d) ∨ r.1 = Raise (HTTPException 422 d))
  ∨ ∃ booking,
      validated_booking payload st = (Return booking, st)
      ∧ let stored := create_document "booking" booking (world st) in
        (trace r.2 = trace st ++ [CreateDocument "booking" booking]
         ∧ world r.2 = stored.2
         ∧ ((∃ message, stored.1 = Failed message
               ∧ r.1 = Raise (HTTPException 500
                         (DetailStr ("Database error: " +:+ message))))
            ∨ (∃ id, stored.1 = Inserted id
                 ∧ r.1 = Raise (OverflowError "date value out of range"))))
        ∨ (trace r.2
           = trace st ++ [CreateDocument "booking" booking; UtcNow]
           ∧ world r.2 = (utcnow stored.2).2
           ∧ ∃ id response, stored.1 = Inserted id ∧ r.1 = Return response).
Proof.
  cbv zeta.
  destruct (create_booking_cases payload st) as [(e & Hv & ->)|[b Hv]].
  - left. split; [done|]. cbn [fst].
    apply validated_booking_raises in Hv as [[-> _]|(? & _ & -> & _)];
      eexists; eauto.
  - right. exists b. split; [done|].
    rewrite (create_booking_accepted _ _ _ Hv). cbv zeta.
    destruct (create_document "booking" b (world st)) as [[id|msg] w];
      cbn [fst snd].
    + rewrite build_ics_run. destruct (add _ _); cbn [fst snd trace world].
      * right. rewrite <- app_assoc. split; [done|]. split; [done|].
        by eexists _, _.
      * left. split; [done|]. split; [done|]. right. by eexists.
    + left. cbn [trace world]. split; [done|]. split; [done|]. left.
      by eexists.
Qed.

(** X8. Whatever is inserted has passed validation: if the request adds
    an insert to the trace, the collection is "booking", the record is
    the validated [Booking], its name has 2 to 100 characters, its phone
    7 to 20 and its notes at most 1000. *)
Theorem X8_inserted_record_is_valid payload st (collection_name : string)
    booking (tail : list Event) :
  trace (create_booking payload st).2
  = trace st ++ CreateDocument collection_name booking :: tail →
  collection_name = "booking"%string
  ∧ validated_booking payload st = (Return booking, st)
  ∧ (2 <= String.length (name booking) <= 100)%nat
  ∧ (7 <= String.length (phone booking) <= 20)%nat
  ∧ (String.length (default EmptyString (notes booking)) <= 1000)%nat.
Proof.
  intros Ht.
  destruct (create_booking_cases payload st) as [(e & Hv & Hr)|[b Hv]].
  - rewrite Hr in Ht. cbn [snd] in Ht.
    rewrite <- (app_nil_r (trace st)) in Ht at 1.
    by apply app_inv_head in Ht.
  - destruct (create_booking_trace _ _ _ Hv) as (tl & Htl & _).
    rewrite Htl in Ht. apply app_inv_head in Ht. injection Ht as <- <- _.
    split; [done|]. split; [done|].
    destruct (validated_booking_inv _ _ _ Hv) as (payload' & _ & Hb).
    by apply Booking_init_bounds in Hb.
Qed.

(** X9. The record built from a payload carries the client's values as
    they were sent: [name], [phone], [service] and [notes] unchanged, the
    address as the e-mail check normalises it, and as timestamp the
    parse of the text, or the typed value, or what the schema coerces
    another value to. *)
Theorem X9_record_carries_payload payload st booking :
  validated_booking payload st = (Return booking, st) →
  payload !! "name" = Some (PStr (name booking))
  ∧ payload !! "phone" = Some (PStr (phone booking))
  ∧ (∃ s, payload !! "email" = Some (PStr s)
          ∧ validate_email s = Some (email booking))
  ∧ payload !! "service" = Some (PStr (service_text (service booking)))
  ∧ match notes booking with
    | None => payload !! "notes" = None ∨ payload !! "notes" = Some PNone
    | Some s => payload !! "notes" = Some (PStr s)
    end
  ∧ ((∃ s, payload !! "preferred_datetime" = Some (PStr s)
           ∧ fromisoformat s = Some (preferred_datetime booking))
     ∨ payload !! "preferred_datetime"
       = Some (PDatetime (preferred_datetime booking))
     ∨ ∃ v, payload !! "preferred_datetime" = Some v
            ∧ is_str (Some v) = false
            ∧ (∀ dt, v ≠ PDatetime dt)
            ∧ lax_datetime v = Some (preferred_datetime booking)).
Proof.
  intros Hv. destruct (validated_booking_inv _ _ _ Hv) as (payload' & Hc & Hb).
  pose proof (Booking_init_fields _ _ Hb) as (Hn & Hp & He & Hs & Hd & Hnt).
  assert (∀ key, key ≠ "preferred_datetime"%string →
                 payload' !! key = payload !! key) as Hkeep
    by (intros; by eapply coerce_preferred_datetime_other).
  rewrite !Hkeep in * by done.
  split; [done|]. split; [done|]. split; [done|]. split; [done|].
  split; [done|].
  rewrite coerce_preferred_datetime_run in Hc.
  destruct (payload !! "preferred_datetime") as [v|] eqn:Hpd.
  2:{ injection Hc as <-. rewrite Hpd in Hd.
      by destruct Hd as [|(? & ? & _)]. }
  destruct v;
    try (injection Hc as <-; rewrite Hpd in Hd;
         destruct Hd as [[=]|(v & [= <-] & Hnd & Hlax)];
         right; right; eexists; by repeat split).
  - destruct (fromisoformat s) as [dt|] eqn:Hs'; [|discriminate].
    injection Hc as <-. left. exists s. split; [done|].
    rewrite Hs'. f_equal.
    symmetry. eapply Booking_init_preferred_datetime; [|done].
    by rewrite lookup_insert_eq.
  - injection Hc as <-. rewrite Hpd in Hd.
    destruct Hd as [[= <-]|(v & [= <-] & Hnd & _)]; [by right; left|].
    by destruct (Hnd dt).
Qed.

(** X10. A returned response has status 200 and the four keys [status],
    [message], [booking_id] and [ics], no other; [booking_id] is the
    identifier the store gave for the validated record, and [ics] is
    what [build_ics] returned for that record after the insert. *)
Theorem X10_success_response payload st (response : JSONResponse) :
  (create_booking payload st).1 = Return response →
  status_code response = 200
  ∧ dom (content response)
    = ({["status"; "message"; "booking_id"; "ics"]} : gset string)
  ∧ content response !! "status" = Some (PStr "success")
  ∧ content response !! "message"
    = Some (PStr "Appointment confirmed — we’ll call to confirm the time.")
  ∧ ∃ booking id ics,
      validated_booking payload st = (Return booking, st)
      ∧ (create_document "booking" booking (world st)).1 = Inserted id
      ∧ content response !! "booking_id" = Some (PStr id)
      ∧ (build_ics booking
           (mk_State (create_document "booking" booking (world st)).2
                     (trace st ++ [CreateDocument "booking" booking]))).1
        = Return ics
      ∧ content response !! "ics" = Some (PStr ics).
Proof.
  destruct (create_booking_cases payload st) as [(e & Hv & ->)|[b Hv]];
    [discriminate|].
  rewrite (create_booking_accepted _ _ _ Hv). cbv zeta.
  destruct (create_document "booking" b (world st)) as [[id|msg] w] eqn:Hst;
    cbn [fst snd]; [|discriminate].
  destruct (build_ics b _) as [[ics|e] st2] eqn:Hics; cbn [fst];
    [|discriminate].
  intros Hr. apply Return_inj in Hr as <-.
  split; [reflexivity|]. split.
  { unfold JSONResponse_init. cbn [content].
    rewrite !dom_insert_L, dom_empty_L. set_solver. }
  split; [reflexivity|]. split; [reflexivity|].
  exists b, id, ics. rewrite Hst. cbn [fst snd]. by rewrite Hics.
Qed.
End Answers.

(** ** The answer on the wire *)

Section Wire.
Context {lib : Libraries} {W : Type} {env : Collaborators W}.
Implicit Types (payload data : Payload) (st : State W) (booking : Booking).

(** A dictionary can be rendered when each of its values can. *)
Lemma dict_serializable_spec (data : gmap string PyVal) :
  dict_serializable data = true
  ↔ ∀ key v, data !! key = Some v → json_serializable v = true.
Proof.
  unfold dict_serializable. rewrite forallb_forall. split.
  - intros H key v Hv. apply (H (key, v)).
    by apply list_elem_of_In, elem_of_map_to_list.
  - intros H [key v] Hin. apply (H key).
    by apply elem_of_map_to_list, list_elem_of_In.
Qed.

(** An entry of the error list of one field. *)
Lemma field_errors_entry {A} data (key : string) (default : option A)
    (check : PyVal → Checked A) (err : ErrorDetails) :
  err ∈ field_errors data key (field data key default check) →
  loc err = key
  ∧ input err = error_input data key
  ∧ (data !! key = None → type err = missing ∧ default = None)
  ∧ (∀ v, data !! key = Some v → check v = inl (type err)).
Proof.
  unfold field.
  destruct (data !! key) as [v|] eqn:Hv.
  - destruct (check v) as [e|] eqn:Hcheck; cbn [field_errors];
      [|by intros ?%elem_of_nil].
    intros ->%list_elem_of_singleton. cbn [loc input type].
    split; [done|]. split; [done|]. split; [done|]. by intros ? [= <-].
  - destruct default; cbn [field_errors]; [by intros ?%elem_of_nil|].
    intros ->%list_elem_of_singleton. cbn [loc input type]. done.
Qed.

(** The entries of the error list: each is about a field, echoes the
    field's value, or the whole mapping when the field is missing, which
    is an error for a field without a default only; a [datetime] object
    under [preferred_datetime] raises no error. *)
Lemma all_errors_entry data (err : ErrorDetails) :
  err ∈ all_errors data →
  input err = error_input data (loc err)
  ∧ (data !! loc err = None → type err = missing ∧ loc err ∈ required)
  ∧ (∀ dt, loc err = "preferred_datetime"%string →
           data !! loc err ≠ Some (PDatetime dt)).
Proof.
  unfold all_errors. rewrite !elem_of_app.
  unfold check_name, check_phone, check_email_field, check_service,
    check_preferred_datetime, check_notes, check_status.
  intros H.
  destruct H as [H|[H|[H|[H|[H|[H|H]]]]]];
    apply field_errors_entry in H as (Hloc & Hin & Hnone & Hsome);
    rewrite Hloc; (split; [done|]); (split;
      [ intros Hn; destruct (Hnone Hn) as [? ?]; first
          [ discriminate | split; [done|]; unfold required; set_solver ]
      | intros dt; try discriminate ]).
  intros _ Hdt. by specialize (Hsome _ Hdt).
Qed.

(** The date step hands on the payload it was given, or the payload
    with the text replaced by the [datetime] it parses to. *)
Lemma coerce_preferred_datetime_inv payload payload' st st' :
  coerce_preferred_datetime payload st = (Return payload', st') →
  (is_str (payload !! "preferred_datetime") = false ∧ payload' = payload)
  ∨ (is_str (payload !! "preferred_datetime") = true
     ∧ ∃ dt, payload' = <["preferred_datetime" := PDatetime dt]> payload).
Proof.
  rewrite coerce_preferred_datetime_run.
  destruct (payload !! "preferred_datetime") as [[]|]; cbn [is_str];
    try (intros [= <- _]; by left).
  destruct (fromisoformat s) as [dt|]; [|discriminate].
  intros [= <- _]. right. split; [done|]. by exists dt.
Qed.

(** The error list of a payload decoded from JSON can be rendered unless
    the date step put a [datetime] into a payload that lacks a field
    without a default. *)
Lemma errors_serializable payload payload' st st' :
  dict_serializable payload = true →
  coerce_preferred_datetime payload st = (Return payload', st') →
  detail_serializable (DetailErrors (all_errors payload')) = true
  ↔ ¬ (is_str (payload !! "preferred_datetime") = true
       ∧ ∃ key, key ∈ required ∧ payload !! key = None).
Proof.
  intros Hjson Hc. rewrite dict_serializable_spec in Hjson.
  cbn [detail_serializable]. rewrite forallb_forall. split.
  - intros Hall [Hstr (key & Hkey & Hnone)].
    destruct (coerce_preferred_datetime_inv _ _ _ _ Hc)
      as [[Hno _]|[_ [dt ->]]]; [congruence|].
    assert (key ≠ "preferred_datetime"%string) as Hne.
    { intros ->. by rewrite Hnone in Hstr. }
    assert (mk_error key missing
              (WholeInput (<["preferred_datetime" := PDatetime dt]> payload))
            ∈ all_errors (<["preferred_datetime" := PDatetime dt]> payload))
      as Hin.
    { apply missing_reported; [done|]. by rewrite lookup_insert_ne. }
    apply list_elem_of_In, Hall in Hin. cbn [input input_serializable] in Hin.
    rewrite dict_serializable_spec in Hin.
    specialize (Hin "preferred_datetime"%string (PDatetime dt)).
    rewrite lookup_insert_eq in Hin. by specialize (Hin eq_refl).
  - intros Hnot err Hin%list_elem_of_In.
    destruct (all_errors_entry _ _ Hin) as (Hinput & Hnone & Hdt).
    rewrite Hinput. unfold error_input.
    destruct (coerce_preferred_datetime_inv _ _ _ _ Hc)
      as [[Hno ->]|[Hstr [dt ->]]].
    + destruct (payload !! loc err) as [v|] eqn:Hv;
        cbn [input_serializable]; [by eapply Hjson|].
      by apply dict_serializable_spec.
    + destruct (decide (loc err = "preferred_datetime"%string)) as [Heq|Hne].
      { exfalso. apply (Hdt dt Heq). rewrite Heq. by rewrite lookup_insert_eq. }
      rewrite lookup_insert_ne in Hnone |- * by done.
      destruct (payload !! loc err) as [v|] eqn:Hv;
        cbn [input_serializable]; [by eapply Hjson|].
      exfalso. apply Hnot. split; [done|]. exists (loc err).
      split; [|done]. by apply Hnone.
Qed.

(** The handler returns nothing but the response of status 200. *)
Lemma create_booking_returns payload st (response : JSONResponse) :
  (create_booking payload st).1 = Return response →
  status_code response = 200.
Proof.
  destruct (create_booking_cases payload st) as [(e & _ & ->)|[b Hv]];
    [discriminate|].
  rewrite (create_booking_accepted _ _ _ Hv). cbv zeta.
  destruct (create_document "booking" b (world st)) as [[id|msg] w];
    cbn [fst snd]; [|discriminate].
  rewrite build_ics_run. destruct (add _ _); cbn [fst]; [|discriminate].
  by intros [= <-].
Qed.

(** C3. A schema failure is not always answered 422.  For a payload
    whose [preferred_datetime] is a text that [datetime.fromisoformat]
    parses and that lacks a field declared without a default, the handler
    does raise [HTTPException] 422 with the error list, and the state is
    untouched; but the entry for the missing field echoes the whole
    payload, which by then holds the [datetime] written at line 114, so
    the detail cannot be rendered and [POST /api/book] answers 500 with
    the text [Internal Server Error], not 422 with the list of fields. *)
Theorem C3_missing_field_answers_500 (payload : Payload) (s : string)
    (dt : datetime) (key : string) (st : State W) :
  payload !! "preferred_datetime" = Some (PStr s) →
  fromisoformat s = Some dt →
  key ∈ required →
  payload !! key = None →
  let payload' := <["preferred_datetime" := PDatetime dt]> payload in
  create_booking payload st
  = (Raise (HTTPException 422 (DetailErrors (all_errors payload'))), st)
  ∧ mk_error key missing (WholeInput payload') ∈ all_errors payload'
  ∧ detail_serializable (DetailErrors (all_errors payload')) = false
  ∧ post_api_book payload st = (internal_server_error, st).
Proof.
  intros Hpd Hiso Hkey Hnone payload'.
  assert (coerce_preferred_datetime payload st = (Return payload', st)) as Hc
    by (by rewrite coerce_preferred_datetime_run, Hpd, Hiso).
  assert (payload' !! key = None) as Hnone'.
  { unfold payload'. rewrite lookup_insert_ne; [done|].
    intros <-. congruence. }
  pose proof (missing_reported _ _ Hkey Hnone') as Hin.
  assert (create_booking payload st
          = (Raise (HTTPException 422 (DetailErrors (all_errors payload'))),
             st)) as Hrun.
  { apply create_booking_rejected.
    rewrite (validated_booking_coerced _ _ _ _ Hc).
    destruct (Booking_init payload') as [b|] eqn:Hb; [|done].
    rewrite (Booking_init_ok _ _ Hb) in Hin. by apply elem_of_nil in Hin. }
  assert (detail_serializable (DetailErrors (all_errors payload')) = false)
    as Hser.
  { apply not_true_is_false. cbn [detail_serializable].
    rewrite forallb_forall. intros Hall.
    apply list_elem_of_In, Hall in Hin. cbn [input input_serializable] in Hin.
    rewrite dict_serializable_spec in Hin.
    specialize (Hin "preferred_datetime"%string (PDatetime dt)).
    unfold payload' in Hin. rewrite lookup_insert_eq in Hin.
    by specialize (Hin eq_refl). }
  split; [done|]. split; [done|]. split; [done|].
  unfold post_api_book. rewrite Hrun. cbn [fst snd answer]. by rewrite Hser.
Qed.

(** X6. For a payload that [json.dumps] can render (one decoded from
    JSON, without floats that are not finite), [POST /api/book] answers 422
    exactly when the date step lets the payload through, some field of
    the payload it hands on violates its constraint, and it is not the
    case that [preferred_datetime] is a text while a field declared
    without a default is missing; the body is then the error list of the
    payload handed on. *)
Theorem X6_unprocessable_iff payload st (b : Body) :
  dict_serializable payload = true →
  (post_api_book payload st).1 = mk_HTTPAnswer 422 b
  ↔ ∃ payload',
      coerce_preferred_datetime payload st = (Return payload', st)
      ∧ (∃ key, violates payload' key)
      ∧ ¬ (is_str (payload !! "preferred_datetime") = true
           ∧ ∃ key, key ∈ required ∧ payload !! key = None)
      ∧ b = DetailBody (DetailErrors (all_errors payload')).
Proof.
  intros Hjson. unfold post_api_book. cbn [fst]. split.
  - destruct (create_booking payload st).1 as [r|e] eqn:Hr; cbn [answer].
    { apply create_booking_returns in Hr.
      destruct (dict_serializable (content r)); [|discriminate].
      intros [= H422 _]. rewrite Hr in H422. discriminate. }
    destruct e as [code d| | | | |]; try discriminate.
    destruct (detail_serializable d) eqn:Hser; [|discriminate].
    intros [= -> <-].
    apply create_booking_outcome in Hr as [Hv|]; [|done].
    apply validated_booking_raises in Hv
      as [[[=] _]|(payload' & Hc & [= ->] & Hkey)].
    exists payload'. split; [done|]. split; [done|]. split; [|done].
    by apply (errors_serializable _ _ _ _ Hjson Hc).
  - intros (payload' & Hc & [key Hkey] & Hnot & ->).
    assert (validated_booking payload st
            = (Raise (HTTPException 422
                        (DetailErrors (all_errors payload'))), st)) as Hv.
    { rewrite (validated_booking_coerced _ _ _ _ Hc).
      destruct (Booking_init payload') as [bk|] eqn:Hb; [|done].
      exfalso. apply all_errors_locs in Hkey.
      rewrite (Booking_init_ok _ _ Hb) in Hkey.
      by apply elem_of_nil in Hkey. }
    rewrite (create_booking_rejected _ _ _ Hv). cbn [fst answer].
    apply (errors_serializable _ _ _ _ Hjson Hc) in Hnot.
    by rewrite Hnot.
Qed.
End Wire.

Lemma C3_missing_field_answers_500_witness :
  let payload := delete "phone" Instances.jane in
  let payload' :=
    <["preferred_datetime" :=
        PDatetime (mk_datetime 2025 6 1 10 0 0 0 None)]> payload in
  Instances.run payload Instances.state0
  = (Raise (HTTPException 422
              (DetailErrors (@all_errors Instances.libraries payload'))),
     Instances.state0)
  ∧ mk_error "phone" missing (WholeInput payload')
      ∈ @all_errors Instances.libraries payload'
  ∧ detail_serializable
      (DetailErrors (@all_errors Instances.libraries payload')) = false
  ∧ Instances.post payload Instances.state0
    = (internal_server_error, Instances.state0).
Proof.
  intros payload payload'.
  apply (@C3_missing_field_answers_500 Instances.libraries _
           Instances.collaborators payload "2025-06-01T10:00:00"
           (mk_datetime 2025 6 1 10 0 0 0 None) "phone" Instances.state0).
  - reflexivity.
  - reflexivity.
  - by apply (list_elem_of_lookup_2 _ 1%nat).
  - reflexivity.
Defined.

(** The payload of the end-to-end example without its [phone]. *)
Example missing_phone_answers_500 :
  Instances.post (delete "phone" Instances.jane) Instances.state0
  = (mk_HTTPAnswer 500 (PlainText "Internal Server Error"),
     Instances.state0).
Proof. reflexivity. Qed.

(** The same payload without its date as well: nothing was written into
    it, the two missing fields are listed and the answer is 422. *)
Example missing_phone_and_date_answers_422 :
  let payload :=
    delete "preferred_datetime" (delete "phone" Instances.jane) in
  Instances.post payload Instances.state0
  = (mk_HTTPAnswer 422
       (DetailBody
          (DetailErrors
             [mk_error "phone" missing (WholeInput payload);
              mk_error "preferred_datetime" missing (WholeInput payload)])),
     Instances.state0).
Proof. reflexivity. Qed.

Lemma X6_unprocessable_iff_witness :
  let payload := <["service" := PStr "Massage"]> Instances.jane in
  let b :=
    DetailBody
      (DetailErrors
         [mk_error "service" literal_error (FieldValue (PStr "Massage"))]) in
  (Instances.post payload Instances.state0).1 = mk_HTTPAnswer 422 b
  ↔ ∃ payload',
      @coerce_preferred_datetime Instances.libraries _ payload
        Instances.state0
      = (Return payload', Instances.state0)
      ∧ (∃ key, @violates Instances.libraries payload' key)
      ∧ ¬ (is_str (payload !! "preferred_datetime") = true
           ∧ ∃ key, key ∈ required ∧ payload !! key = None)
      ∧ b = DetailBody
              (DetailErrors (@all_errors Instances.libraries payload')).
Proof.
  intros payload b.
  apply (@X6_unprocessable_iff Instances.libraries _ Instances.collaborators
           payload Instances.state0 b).
  reflexivity.
Defined.

Lemma X8_inserted_record_is_valid_witness :
  "booking"%string = "booking"%string
  ∧ @validated_booking Instances.libraries _ Instances.jane Instances.state0
    = (Return Instances.jane_booking, Instances.state0)
  ∧ (2 <= String.length (name Instances.jane_booking) <= 100)%nat
  ∧ (7 <= String.length (phone Instances.jane_booking) <= 20)%nat
  ∧ (String.length (default EmptyString (notes Instances.jane_booking))
     <= 1000)%nat.
Proof.
  apply (@X8_inserted_record_is_valid Instances.libraries _
           Instances.collaborators Instances.jane Instances.state0
           "booking" Instances.jane_booking [UtcNow]).
  reflexivity.
Defined.

Lemma X9_record_carries_payload_witness :
  let payload := <["notes" := PStr "window seat"]> Instances.jane in
  let booking :=
    mk_Booking "Jane Doe" "1234567890" "jane@example.com" Facials
               (mk_datetime 2025 6 1 10 0 0 0 None) (Some "window seat")
               pending in
  payload !! "name" = Some (PStr (name booking))
  ∧ payload !! "phone" = Some (PStr (phone booking))
  ∧ (∃ s, payload !! "email" = Some (PStr s)
          ∧ Instances.simple_validate_email s = Some (email booking))
  ∧ payload !! "service" = Some (PStr (service_text (service booking)))
  ∧ match notes booking with
    | None => payload !! "notes" = None ∨ payload !! "notes" = Some PNone
    | Some s => payload !! "notes" = Some (PStr s)
    end
  ∧ ((∃ s, payload !! "preferred_datetime" = Some (PStr s)
           ∧ Instances.iso_fromisoformat s
             = Some (preferred_datetime booking))
     ∨ payload !! "preferred_datetime"
       = Some (PDatetime (preferred_datetime booking))
     ∨ ∃ v, payload !! "preferred_datetime" = Some v
            ∧ is_str (Some v) = false
            ∧ (∀ dt, v ≠ PDatetime dt)
            ∧ Instances.no_lax_datetime v
              = Some (preferred_datetime booking)).
Proof.
  intros payload booking.
  apply (@X9_record_carries_payload Instances.libraries _
           payload Instances.state0 booking).
  reflexivity.
Defined.

Lemma X10_success_response_witness :
  status_code Instances.jane_response = 200
  ∧ dom (content Instances.jane_response)
    = ({["status"; "message"; "booking_id"; "ics"]} : gset string)
  ∧ content Instances.jane_response !! "status" = Some (PStr "success")
  ∧ content Instances.jane_response !! "message"
    = Some (PStr "Appointment confirmed — we’ll call to confirm the time.")
  ∧ ∃ booking id ics,
      @validated_booking Instances.libraries _ Instances.jane Instances.state0
      = (Return booking, Instances.state0)
      ∧ (Instances.store_create_document "booking" booking
           (world Instances.state0)).1 = Inserted id
      ∧ content Instances.jane_response !! "booking_id" = Some (PStr id)
      ∧ (@build_ics _ Instances.collaborators booking
           (mk_State (Instances.store_create_document "booking" booking
                        (world Instances.state0)).2
                     (trace Instances.state0
                      ++ [CreateDocument "booking" booking]))).1
        = Return ics
      ∧ content Instances.jane_response !! "ics" = Some (PStr ics).
Proof.
  apply (@X10_success_response Instances.libraries _ Instances.collaborators
           Instances.jane Instances.state0 Instances.jane_response).
  reflexivity.
Defined.

(** ** The text of the invite *)

Lemma lines_length (s : string) : length (lines s) = S (count_LF s).
Proof.
  induction s as [|c s IH]; [reflexivity|]. cbn [lines count_LF].
  destruct (Ascii.eqb c LF); cbn [length]; [by rewrite IH|].
  pose proof (lines_not_nil s). destruct (lines s); [done|].
  cbn [length] in *. lia.
Qed.

Lemma count_LF_app (a b : string) :
  count_LF (a +:+ b) = (count_LF a + count_LF b)%nat.
Proof.
  induction a as [|c a IH]; [reflexivity|].
  rewrite append_cons. cbn [count_LF]. rewrite IH. lia.
Qed.

Lemma count_LF_no_LF (s : string) : no_LF s = true ↔ count_LF s = O.
Proof.
  induction s as [|c s IH]; [done|]. cbn [no_LF count_LF].
  rewrite andb_true_iff, IH, negb_true_iff.
  destruct (Ascii.eqb c LF); split; intros; try lia; intuition lia.
Qed.

Lemma count_LF_strftime_compact (dt : datetime) :
  count_LF (strftime dt "%Y%m%dT%H%M%S") = O.
Proof. apply count_LF_no_LF, no_LF_strftime_compact. Qed.

Lemma flat_map_lines_clean (records : list string) :
  Forall (fun r => no_LF r = true) records →
  flat_map lines records = records.
Proof.
  induction 1 as [|r rs Hr _ IH]; [reflexivity|].
  cbn [flat_map]. by rewrite (lines_no_LF _ Hr), IH.
Qed.

Lemma run_Return_inj {A S} (a b : A) (s s' : S) :
  (Return a, s) = (Return b, s') → a = b.
Proof. by intros [= -> _]. Qed.

Section Invite.
Context {lib : Libraries} {W : Type} {env : Collaborators W}.
Implicit Types (st : State W) (booking : Booking).

(** X11. Nothing the client sent is escaped: the invite has 14 lines,
    and one more for every line feed in the address, the name, the phone
    and the notes of the record. *)
Theorem X11_invite_line_count booking st (ics : string) st' :
  build_ics booking st = (Return ics, st') →
  length (lines ics)
  = (14 + count_LF (email booking) + count_LF (name booking)
     + count_LF (phone booking)
     + count_LF (default EmptyString (notes booking)))%nat.
Proof.
  rewrite build_ics_run. destruct (add _ _) as [end_|]; [|discriminate].
  intros Hrun%run_Return_inj. subst ics. rewrite lines_join.
  cbn [vevent_records flat_map]. rewrite !length_app, !lines_length.
  rewrite !count_LF_app, strftime_stamp, !count_LF_app,
    !count_LF_strftime_compact.
  pose proof (proj1 (count_LF_no_LF _)
                (no_LF_service_text (service booking))) as ->.
  repeat match goal with
  | |- context [count_LF ?s] =>
      lazymatch s with
      | context [booking] => fail
      | _ =>
          let v := eval vm_compute in (count_LF s) in
          progress change (count_LF s) with v
      end
  end.
  cbn [length]. lia.
Qed.

(** X12. When the address, the name, the phone and the notes hold no line
    feed, the lines of the invite are the thirteen records [build_ics]
    writes, in order, and an empty last piece after the final line
    feed. *)
Theorem X12_invite_lines_when_clean booking st (ics : string) st' :
  build_ics booking st = (Return ics, st') →
  no_LF (email booking) = true →
  no_LF (name booking) = true →
  no_LF (phone booking) = true →
  no_LF (default EmptyString (notes booking)) = true →
  ∃ end_,
    add (preferred_datetime booking) (timedelta_of 0 1 0 0 0) = Some end_
    ∧ lines ics
      = vevent_records booking end_ (utcnow (world st)).1 ++ [EmptyString].
Proof.
  rewrite build_ics_run. destruct (add _ _) as [end_|]; [|discriminate].
  intros Hrun%run_Return_inj Hmail Hname Hphone Hnotes. subst ics.
  exists end_. split; [done|].
  rewrite lines_join. f_equal. apply flat_map_lines_clean.
  unfold vevent_records.
  repeat (apply Forall_cons; split;
          [rewrite ?strftime_stamp, ?no_LF_app, ?no_LF_strftime_compact,
             ?no_LF_service_text, ?Hmail, ?Hname, ?Hphone, ?Hnotes;
           reflexivity|]).
  apply Forall_nil_2.
Qed.
End Invite.

Lemma X11_invite_line_count_witness :
  let booking :=
    mk_Booking ("Jane" +:+ NL +:+ "LOCATION:Elsewhere") "1234567890"
               "jane@example.com" Facials
               (mk_datetime 2025 6 1 10 0 0 0 None) None pending in
  let ics :=
    join (vevent_records booking (mk_datetime 2025 6 1 11 0 0 0 None)
                         (Instances.clock Instances.world0)) in
  length (lines ics) = 15%nat.
Proof.
  intros booking ics.
  apply (@X11_invite_line_count _ Instances.collaborators booking
           Instances.state0 ics (mk_State Instances.world0 [UtcNow])).
  reflexivity.
Defined.

(** A name with a line feed puts a line of its own before LOCATION. *)
Example injected_location :
  let booking :=
    mk_Booking ("Jane" +:+ NL +:+ "LOCATION:Elsewhere") "1234567890"
               "jane@example.com" Facials
               (mk_datetime 2025 6 1 10 0 0 0 None) None pending in
  match (@build_ics _ Instances.collaborators booking Instances.state0).1 with
  | Return ics =>
      field_line "LOCATION:" ics
      = Some "LOCATION:Elsewhere\nPhone: 1234567890\nNotes: "%string
  | Raise _ => False
  end.
Proof. vm_compute. reflexivity. Qed.

Lemma X12_invite_lines_when_clean_witness :
  let ics :=
    join (vevent_records Instances.jane_booking
            (mk_datetime 2025 6 1 11 0 0 0 None)
            (Instances.clock Instances.world0)) in
  ∃ end_,
    add (preferred_datetime Instances.jane_booking) (timedelta_of 0 1 0 0 0)
    = Some end_
    ∧ lines ics
      = vevent_records Instances.jane_booking end_
          (Instances.clock Instances.world0) ++ [EmptyString].
Proof.
  intros ics.
  apply (@X12_invite_lines_when_clean _ Instances.collaborators
           Instances.jane_booking Instances.state0 ics
           (mk_State Instances.world0 [UtcNow])); reflexivity.
Defined.

(** ** The end of the appointment *)

Lemma days_before_month_succ (y m : Z) :
  1 <= m < 12 →
  _days_before_month y (m + 1) = _days_before_month y m + _days_in_month y m.
Proof.
  intros Hm. unfold _days_before_month, _days_in_month.
  assert (m = 1 ∨ m = 2 ∨ m = 3 ∨ m = 4 ∨ m = 5 ∨ m = 6 ∨ m = 7 ∨ m = 8
          ∨ m = 9 ∨ m = 10 ∨ m = 11)
    as [->|[->|[->|[->|[->|[->|[->|[->|[->|[->| ->]]]]]]]]]] by lia;
    destruct (_is_leap y); eval_months; reflexivity.
Qed.

Lemma days_in_month_bounds (y m : Z) :
  1 <= m <= 12 → 28 <= _days_in_month y m <= 31.
Proof.
  intros Hm. unfold _days_in_month.
  destruct (month_cases m Hm)
    as [->|[->|[->|[->|[->|[->|[->|[->|[->|[->|[->| ->]]]]]]]]]]];
    destruct (_is_leap y); eval_months; lia.
Qed.

(** The calendar count of one hour agrees with the arithmetic of
    [datetime.__add__]. *)
Lemma add_one_hour (dt : datetime) :
  valid dt →
  wall_clock_us dt < wall_clock_us (mk_datetime 9999 12 31 23 0 0 0 None) →
  add dt (timedelta_of 0 1 0 0 0) = Some (one_hour_later dt).
Proof.
  intros Hvalid Hlast.
  change (wall_clock_us (mk_datetime 9999 12 31 23 0 0 0 None))
    with 315537980400000000 in Hlast.
  change (timedelta_of 0 1 0 0 0) with (3600 * US_PER_SECOND).
  pose proof (toordinal_bounds _ Hvalid) as Hord.
  destruct (add_spec dt (3600 * US_PER_SECOND))
    as [[_ Hout]|(_ & end_ & -> & Hv & Htz & Hwc)].
  { exfalso. apply Hout.
    destruct Hvalid as (_ & _ & _ & Hh & Hmi & Hs & Hu).
    unfold wall_clock_us, timedelta_of, US_PER_DAY, US_PER_SECOND,
      _MAXORDINAL in *.
    Z.to_euclidean_division_equations. lia. }
  f_equal. symmetry.
  destruct Hvalid as (Hy & Hm & Hd & Hh & Hmi & Hs & Hu).
  pose proof (days_in_month_bounds (year dt) (month dt) Hm) as Hdim.
  assert (valid (one_hour_later dt)
          ∧ tzinfo (one_hour_later dt) = tzinfo dt
          ∧ wall_clock_us (one_hour_later dt)
            = wall_clock_us dt + 3600 * US_PER_SECOND) as (Hv' & Htz' & Hwc').
  { unfold one_hour_later.
    destruct (Z.ltb_spec (hour dt) 23) as [Hh23|Hh23].
    { unfold valid, wall_clock_us, toordinal, timedelta_of, US_PER_SECOND
        in *.
      cbn [year month day hour minute second microsecond tzinfo].
      repeat split; first [lia | done]. }
    destruct (Z.ltb_spec (day dt) (_days_in_month (year dt) (month dt)))
      as [Hday|Hday].
    { unfold valid, wall_clock_us, toordinal, timedelta_of, US_PER_SECOND,
        _ymd2ord in *.
      cbn [year month day hour minute second microsecond tzinfo].
      repeat split; first [lia | done]. }
    destruct (Z.ltb_spec (month dt) 12) as [Hmon|Hmon].
    { pose proof (days_before_month_succ (year dt) (month dt) ltac:(lia))
        as Hsucc.
      pose proof (days_in_month_bounds (year dt) (month dt + 1) ltac:(lia)).
      unfold valid, wall_clock_us, toordinal, timedelta_of, US_PER_SECOND,
        _ymd2ord in *.
      cbn [year month day hour minute second microsecond tzinfo].
      rewrite Hsucc. repeat split; first [lia | done]. }
    assert (month dt = 12) as Hm12 by lia.
    assert (day dt = 31) as Hd31.
    { rewrite Hm12 in Hday, Hd. unfold _days_in_month in *.
      eval_months. lia. }
    pose proof (days_before_year_succ (year dt)) as Hyear.
    assert (year dt < 9999) as Hy9.
    { destruct (Z_lt_le_dec (year dt) 9999) as [|Hge]; [done|]. exfalso.
      assert (year dt = 9999) as Hy99 by (unfold MAXYEAR in Hy; lia).
      unfold wall_clock_us, toordinal, timedelta_of, US_PER_SECOND, _ymd2ord
        in Hlast.
      rewrite Hy99, Hm12, Hd31 in Hlast.
      change (_days_before_year 9999 + _days_before_month 9999 12)
        with 3652028 in Hlast. lia. }
    unfold valid, wall_clock_us, toordinal, timedelta_of, US_PER_SECOND,
      _ymd2ord, MINYEAR, MAXYEAR in *.
    cbn [year month day hour minute second microsecond tzinfo].
    rewrite Hm12, Hd31, Hyear.
    unfold _days_before_month, _days_in_month. eval_months.
    destruct (_is_leap (year dt)), (_is_leap (year dt + 1));
      repeat split; first [lia | done]. }
  apply wall_clock_us_inj; [done|done|congruence|lia].
Qed.

(** X13. The DTEND line is the start counted one hour on by the
    calendar: the next hour of the same day, or 00 of the next day after
    23, rolling into the next month and year, leap days included. *)
Theorem X13_end_by_calendar {W : Type} {env : Collaborators W}
    (booking : Booking) (st : State W) :
  valid (preferred_datetime booking) →
  wall_clock_us (preferred_datetime booking)
  < wall_clock_us (mk_datetime 9999 12 31 23 0 0 0 None) →
  ∃ (ics : string) (st' : State W),
    build_ics booking st = (Return ics, st')
    ∧ "DTEND:"
      +:+ strftime (one_hour_later (preferred_datetime booking))
                   "%Y%m%dT%H%M%S" ∈ lines ics
    ∧ (no_LF (email booking) = true →
       field_line "DTEND:" ics
       = Some ("DTEND:"
               +:+ strftime (one_hour_later (preferred_datetime booking))
                            "%Y%m%dT%H%M%S")).
Proof.
  intros Hvalid Hlast. rewrite build_ics_run.
  rewrite (add_one_hour _ Hvalid Hlast).
  eexists _, _. split; [reflexivity|]. split.
  - apply record_in_lines.
    + by apply (list_elem_of_lookup_2 _ 7%nat).
    + by rewrite no_LF_app, no_LF_strftime_compact.
  - intros Hmail. by apply vevent_records_start_end.
Qed.

Lemma X13_end_by_calendar_witness :
  let booking :=
    mk_Booking "Jane Doe" "1234567890" "jane@example.com" Facials
               (mk_datetime 2024 2 28 23 30 0 0 None) None pending in
  ∃ ics st',
    @build_ics _ Instances.collaborators booking Instances.state0
    = (Return ics, st')
    ∧ "DTEND:20240229T003000"%string ∈ lines ics
    ∧ (no_LF (email booking) = true →
       field_line "DTEND:" ics = Some "DTEND:20240229T003000"%string).
Proof.
  intros booking.
  apply (@X13_end_by_calendar _ Instances.collaborators booking
           Instances.state0).
  - apply validb_valid. reflexivity.
  - reflexivity.
Defined.

(** ** The event identifier *)

Lemma length_append (a b : string) :
  String.length (a +:+ b) = (String.length a + String.length b)%nat.
Proof.
  induction a as [|c a IH]; [reflexivity|].
  rewrite append_cons. cbn [String.length]. by rewrite IH.
Qed.

Lemma append_inj_length (a a2 b b2 : string) :
  String.length a = String.length a2 →
  a +:+ b = a2 +:+ b2 → a = a2 ∧ b = b2.
Proof.
  revert a2. induction a as [|c a IH]; intros [|c2 a2] Hlen; try discriminate.
  - by rewrite !append_nil.
  - rewrite !append_cons. intros [= -> Heq]. cbn [String.length] in Hlen.
    destruct (IH a2 ltac:(lia) Heq) as [-> ->]. done.
Qed.

Lemma zero_padded_length (width : nat) (n : Z) :
  String.length (zero_padded width n) = width.
Proof.
  revert n. induction width as [|w IH]; intros n; [reflexivity|].
  cbn [zero_padded]. rewrite length_append, IH. cbn [String.length]. lia.
Qed.

Lemma digit_char_inj (n m : Z) :
  digit_char n = digit_char m → n mod 10 = m mod 10.
Proof.
  unfold digit_char. intros Heq.
  pose proof (Z.mod_pos_bound n 10 ltac:(lia)).
  pose proof (Z.mod_pos_bound m 10 ltac:(lia)).
  apply (f_equal Ascii.nat_of_ascii) in Heq.
  rewrite !Ascii.nat_ascii_embedding in Heq by lia. lia.
Qed.

(** A number is read back from its zero-padded digits. *)
Lemma zero_padded_inj (width : nat) (n m : Z) :
  0 <= n < 10 ^ Z.of_nat width → 0 <= m < 10 ^ Z.of_nat width →
  zero_padded width n = zero_padded width m → n = m.
Proof.
  revert n m. induction width as [|w IH]; intros n m Hn Hm Heq.
  - change (10 ^ Z.of_nat 0) with 1 in *. lia.
  - rewrite Nat2Z.inj_succ, Z.pow_succ_r in Hn, Hm by lia.
    cbn [zero_padded] in Heq.
    apply append_inj_length in Heq as [Hhi Hlo];
      [|by rewrite !zero_padded_length].
    injection Hlo as Hlo%digit_char_inj.
    apply IH in Hhi; [|Z.to_euclidean_division_equations; lia..].
    Z.to_euclidean_division_equations. lia.
Qed.

Lemma strftime_compact_length (dt : datetime) :
  String.length (strftime dt "%Y%m%dT%H%M%S") = 15%nat.
Proof.
  rewrite strftime_compact, !length_append, !zero_padded_length.
  reflexivity.
Qed.

(** The compact text of a valid [datetime] tells its reading to the
    second, and nothing more. *)
Lemma strftime_compact_inj (a b : datetime) :
  valid a → valid b →
  strftime a "%Y%m%dT%H%M%S" = strftime b "%Y%m%dT%H%M%S"
  ↔ year a = year b ∧ month a = month b ∧ day a = day b
    ∧ hour a = hour b ∧ minute a = minute b ∧ second a = second b.
Proof.
  intros (Hy & Hm & Hd & Hh & Hmi & Hs & _) (Hy2 & Hm2 & Hd2 & Hh2 & Hmi2 & Hs2 & _).
  pose proof (days_in_month_bounds (year a) _ Hm).
  pose proof (days_in_month_bounds (year b) _ Hm2).
  unfold MINYEAR, MAXYEAR in *. rewrite !strftime_compact. split.
  - intros Heq.
    apply append_inj_length in Heq as [Hyear Heq];
      [|by rewrite !zero_padded_length].
    apply append_inj_length in Heq as [Hmonth Heq];
      [|by rewrite !zero_padded_length].
    apply append_inj_length in Heq as [Hday Heq];
      [|by rewrite !zero_padded_length].
    apply append_inj_length in Heq as [_ Heq]; [|done].
    apply append_inj_length in Heq as [Hhour Heq];
      [|by rewrite !zero_padded_length].
    apply append_inj_length in Heq as [Hminute Hsecond];
      [|by rewrite !zero_padded_length].
    apply zero_padded_inj in Hyear, Hmonth, Hday, Hhour, Hminute, Hsecond;
      try (cbn; lia).
  - intros (-> & -> & -> & -> & -> & ->). done.
Qed.

(** X14. With valid starts and addresses free of line feeds, two invites
    have the same UID line exactly when the two bookings have the same
    address and the same start read to the second: neither microseconds
    nor [tzinfo], nor any other field, tell two UIDs apart. *)
Theorem X14_uid_equal_iff {W : Type} {env : Collaborators W}
    (booking1 booking2 : Booking)
    (st1 st2 st1' st2' : State W) (ics1 ics2 : string) :
  build_ics booking1 st1 = (Return ics1, st1') →
  build_ics booking2 st2 = (Return ics2, st2') →
  valid (preferred_datetime booking1) →
  valid (preferred_datetime booking2) →
  no_LF (email booking1) = true →
  no_LF (email booking2) = true →
  field_line "UID:" ics1 = field_line "UID:" ics2
  ↔ email booking1 = email booking2
    ∧ year (preferred_datetime booking1) = year (preferred_datetime booking2)
    ∧ month (preferred_datetime booking1) = month (preferred_datetime booking2)
    ∧ day (preferred_datetime booking1) = day (preferred_datetime booking2)
    ∧ hour (preferred_datetime booking1) = hour (preferred_datetime booking2)
    ∧ minute (preferred_datetime booking1)
      = minute (preferred_datetime booking2)
    ∧ second (preferred_datetime booking1)
      = second (preferred_datetime booking2).
Proof.
  rewrite !build_ics_run.
  destruct (add (preferred_datetime booking1) _) as [end1|]; [|discriminate].
  destruct (add (preferred_datetime booking2) _) as [end2|]; [|discriminate].
  intros H1%run_Return_inj H2%run_Return_inj Hv1 Hv2 Hm1 Hm2. subst ics1 ics2.
  rewrite !vevent_records_uid.
  rewrite !lines_no_LF
    by (by rewrite !no_LF_app, no_LF_strftime_compact, ?Hm1, ?Hm2).
  cbn [head]. rewrite <- (strftime_compact_inj _ _ Hv1 Hv2). split.
  - intros Heq. apply (inj Some) in Heq.
    change ("UID:booking-" +:+ ?x) with ("UID:booking-" +:+ x) in Heq.
    apply append_inj_length in Heq as [_ Heq]; [|done].
    apply append_inj_length in Heq as [Hstamp Heq];
      [|by rewrite !strftime_compact_length].
    apply append_inj_length in Heq as [_ Hmail]; done.
  - by intros [-> ->].
Qed.

Lemma X14_uid_equal_iff_witness :
  let booking1 := Instances.jane_booking in
  let booking2 :=
    mk_Booking "John Doe" "7654321" "jane@example.com" Manicure
               (mk_datetime 2025 6 1 10 0 0 250000 (Some 19800000000))
               (Some "other") confirmed in
  let ics1 :=
    join (vevent_records booking1 (mk_datetime 2025 6 1 11 0 0 0 None)
                         (Instances.clock Instances.world0)) in
  let ics2 :=
    join (vevent_records booking2
            (mk_datetime 2025 6 1 11 0 0 250000 (Some 19800000000))
            (Instances.clock Instances.world0)) in
  field_line "UID:" ics1 = field_line "UID:" ics2
  ↔ email booking1 = email booking2
    ∧ year (preferred_datetime booking1) = year (preferred_datetime booking2)
    ∧ month (preferred_datetime booking1) = month (preferred_datetime booking2)
    ∧ day (preferred_datetime booking1) = day (preferred_datetime booking2)
    ∧ hour (preferred_datetime booking1) = hour (preferred_datetime booking2)
    ∧ minute (preferred_datetime booking1)
      = minute (preferred_datetime booking2)
    ∧ second (preferred_datetime booking1)
      = second (preferred_datetime booking2).
Proof.
  intros booking1 booking2 ics1 ics2.
  apply (@X14_uid_equal_iff _ Instances.collaborators booking1 booking2
           Instances.state0 Instances.state0
           (mk_State Instances.world0 [UtcNow])
           (mk_State Instances.world0 [UtcNow]) ics1 ics2);
    first [reflexivity | apply validb_valid; reflexivity].
Defined.

(** ** The environment in the diagnostics *)

Lemma test_database_flags (p : Probe) :
  ∃ response : Payload,
    test_database p = Return response
    ∧ response !! "database_url"
      = Some (PStr (if getenv_truthy p "DATABASE_URL"
                    then "✅ Set" else "❌ Not Set"))
    ∧ response !! "database_name"
      = Some (PStr (if getenv_truthy p "DATABASE_NAME"
                    then "✅ Set" else "❌ Not Set")).
Proof.
  unfold test_database, test_database_body, probe_database, set_item,
    of_probed.
  unfold_M.
  destruct (import_db p) as [msg|msg|[db|]];
    [| |destruct (list_collection_names db) as [msg|msg|names]|];
    cbn [fst snd]; eexists; (split; [reflexivity|]);
    split; by simplify_map_eq.
Qed.

(** X15. In the dictionary of [test_database], [database_url] and
    [database_name] tell only whether DATABASE_URL and DATABASE_NAME are
    set to a text that is not empty; whatever the probe of the store
    found, the name of the handle and the word "Configured" never reach
    the response. *)
Theorem X15_environment_flags (p : Probe) :
  match test_database p with
  | Return response =>
      (response !! "database_url" = Some (PStr "✅ Set")
       ∨ response !! "database_url" = Some (PStr "❌ Not Set"))
      ∧ (response !! "database_url" = Some (PStr "✅ Set")
         ↔ ∃ v, environ p !! "DATABASE_URL" = Some v ∧ v ≠ EmptyString)
      ∧ (response !! "database_name" = Some (PStr "✅ Set")
         ∨ response !! "database_name" = Some (PStr "❌ Not Set"))
      ∧ (response !! "database_name" = Some (PStr "✅ Set")
         ↔ ∃ v, environ p !! "DATABASE_NAME" = Some v ∧ v ≠ EmptyString)
  | Raise _ => False
  end.
Proof.
  destruct (test_database_flags p) as (response & -> & Hurl & Hname).
  assert (∀ key, getenv_truthy p key = true
                 ↔ ∃ v, environ p !! key = Some v ∧ v ≠ EmptyString) as Henv.
  { intros key. unfold getenv_truthy.
    destruct (environ p !! key) as [v|]; [|naive_solver].
    rewrite negb_true_iff. destruct (String.eqb_spec v EmptyString).
    - split; [done|]. by intros (? & [= <-] & ?).
    - split; [|done]. intros _. by exists v. }
  rewrite Hurl, Hname, <- !Henv.
  destruct (getenv_truthy p "DATABASE_URL"),
    (getenv_truthy p "DATABASE_NAME"); repeat split; auto; try discriminate.
  all: intros [= ?]; done.
Qed.
